(** * v_alloc: a virtual-memory arena allocator, embedded in Rocq

    The development follows the C source function by function.

    - The target is a 64-bit one: [size_t] values are integers in
      [0, 2^64), pointers take eight bytes; every [size_t] computation of the
      source is wrapped with [to_size_t].
    - Addresses ([char*], [void*]) are 64-bit too.  The pointer sums of
      [v_alloc_committ], [v_alloc_resize] and the POSIX commit are reduced
      modulo 2^64 with [wrap_ptr], as the compiled code computes them; a
      pointer difference cast to [size_t] is wrapped.  The subtraction of
      [v_alloc_decommit] and the header offsets of [v_alloc_realloc] are
      left exact.
    - The operating system is an oracle [Kernel] that answers every system
      call from the history of the calls made so far; the history is kept
      in the [World], next to the process-wide cached page size
      ([v_alloc.page_size] in the source).
    - A function that takes [AllocInfo *] and mutates it returns the new
      descriptor next to its C result. *)

From Stdlib Require Import ZArith List Lia Bool Sorted.
Import ListNotations.
Local Open Scope Z_scope.

(* ================================================================== *)
(** ** Machine integers and constants *)

Definition size_t_modulus : Z := 2 ^ 64.

Definition to_size_t (x : Z) : Z := x mod size_t_modulus.

(** Modelled from the spec: the type [s32] is used by the POSIX provider but
    declared in no file of the source, and the spec does not describe it; it
    is taken to be a signed 32-bit integer in two's complement. *)
Definition to_s32 (x : Z) : Z := (x + 2 ^ 31) mod 2 ^ 32 - 2 ^ 31.

Definition to_DWORD (x : Z) : Z := x mod 2 ^ 32.

Definition is_size_t (x : Z) : Prop := 0 <= x < size_t_modulus.

(** The address a pointer sum yields on the flat 64-bit address space. *)
Definition wrap_ptr (x : Z) : Z := x mod size_t_modulus.

Definition NULL : Z := 0.

Definition V_ALLOC_ALIGNMENT : Z := 16.

Definition MAX_ARENA_CAPACITY : Z := 1024 * 1024 * 1024.

(** Modelled from the spec: the macros [ALIGN_UP] and [ALIGN_DOWN_PTR] are
    used by the source but defined in no file of it.  The spec says that a
    request is "rounded up" to the alignment or to the page size and that the
    decommit address is "page-aligned downward"; the operands are [size_t],
    so the sum that rounding up needs wraps like every [size_t] sum. *)
Definition ALIGN_DOWN (n a : Z) : Z := (n / a) * a.

Definition ALIGN_UP (n a : Z) : Z := ALIGN_DOWN (to_size_t (n + (a - 1))) a.

Definition ALIGN_DOWN_PTR (p a : Z) : Z := ALIGN_DOWN p a.

(** The usual bit-mask spelling of the same macros, for powers of two. *)
Definition ALIGN_DOWN_mask (n a : Z) : Z := Z.land n (Z.lnot (a - 1)).

Definition ALIGN_UP_mask (n a : Z) : Z :=
  ALIGN_DOWN_mask (to_size_t (n + (a - 1))) a.

(* ================================================================== *)
(** ** The descriptor *)

Record AllocInfo : Type := mkAllocInfo {
  base : Z;
  ptr : Z;
  end_ : Z;
  reserved_size : Z;
  page_size : Z
}.

(** [AllocInfo alloc_info = {0};] *)
Definition zero_info : AllocInfo := mkAllocInfo 0 0 0 0 0.

Definition set_base (v : Z) (ai : AllocInfo) : AllocInfo :=
  mkAllocInfo v (ptr ai) (end_ ai) (reserved_size ai) (page_size ai).

Definition set_ptr (v : Z) (ai : AllocInfo) : AllocInfo :=
  mkAllocInfo (base ai) v (end_ ai) (reserved_size ai) (page_size ai).

Definition set_end (v : Z) (ai : AllocInfo) : AllocInfo :=
  mkAllocInfo (base ai) (ptr ai) v (reserved_size ai) (page_size ai).

(* ================================================================== *)
(** ** The platform memory provider *)

Module Platform.

(** Flag values of the system headers, kept as numbers because the Windows
    decommit passes a flag where a size is expected and a size where a
    flag is expected. *)
Definition PROT_NONE : Z := 0.
Definition PROT_READ_WRITE : Z := 3.
Definition MAP_FAILED : Z := size_t_modulus - 1.
Definition MEM_COMMIT : Z := 4096.
Definition MEM_RESERVE : Z := 8192.
Definition MEM_DECOMMIT : Z := 16384.
Definition MEM_RELEASE : Z := 32768.
Definition PAGE_NOACCESS : Z := 1.
Definition PAGE_READWRITE : Z := 4.

Inductive SysCall : Type :=
| Sysconf_PAGESIZE
| Mmap (len : Z)
| Mprotect (addr len prot : Z)
| Madvise_DONTNEED (addr len : Z)
| Munmap (addr len : Z)
| GetSystemInfo_dwPageSize
| VirtualAlloc (addr size alloc_type protect : Z)
| VirtualFree (addr size free_type : Z).

(** The answer of the operating system to a call, given the calls made
    before it (most recent first). *)
Definition Kernel : Type := list SysCall -> SysCall -> Z.

Record World : Type := mkWorld {
  history : list SysCall;
  v_alloc_page_size : Z
}.

Definition set_page_size (v : Z) (w : World) : World :=
  mkWorld (history w) v.

Definition syscall (K : Kernel) (c : SysCall) (w : World) : Z * World :=
  (K (history w) c, mkWorld (c :: history w) (v_alloc_page_size w)).

(** The dispatch table [V_Allocator]; its [page_size] member is mutable
    and lives in the [World]. *)
Record V_Allocator : Type := mkV_Allocator {
  reserve : World -> Z -> Z * World;
  commit : World -> Z -> Z -> Z -> bool * World;
  decommit : World -> Z -> Z -> bool * World;
  release : World -> Z -> Z -> bool * World
}.

(** The build-time choice between the two providers. *)
Inductive Target : Type := POSIX | WIN32.

Section Providers.
Variable K : Kernel.

(** *** POSIX *)

Definition v_alloc_posix_get_page_size (w : World) : Z * World :=
  let (r, w) := syscall K Sysconf_PAGESIZE w in
  let page_size := to_s32 r in
  if page_size <=? 0 then (0, w) else (to_size_t page_size, w).

Definition v_alloc_posix_reserve (w : World) (size : Z) : Z * World :=
  let w :=
    if v_alloc_page_size w =? 0
    then let (p, w) := v_alloc_posix_get_page_size w in set_page_size p w
    else w in
  let (p, w) := syscall K (Mmap size) w in
  (if p =? MAP_FAILED then NULL else p, w).

Definition v_alloc_posix_commit (w : World)
    (addr total_size additional_bytes : Z) : bool * World :=
  let addr := wrap_ptr (addr + total_size - additional_bytes) in
  let (r, w) := syscall K (Mprotect addr additional_bytes PROT_READ_WRITE) w in
  let result := to_s32 r in
  (negb (result =? 0), w).

Definition v_alloc_posix_decommit (w : World) (addr extra_size : Z)
    : bool * World :=
  let (r, w) := syscall K (Madvise_DONTNEED addr extra_size) w in
  let result := to_s32 r in
  if result =? 0
  then
    let (r, w) := syscall K (Mprotect addr extra_size PROT_NONE) w in
    let result := to_s32 r in
    (result =? 0, w)
  else (result =? 0, w).

Definition v_alloc_posix_release (w : World) (addr size : Z)
    : bool * World :=
  let (r, w) := syscall K (Munmap addr size) w in
  (r =? 0, w).

(** *** Windows *)

Definition v_alloc_win_get_page_size (w : World) : Z * World :=
  let (r, w) := syscall K GetSystemInfo_dwPageSize w in
  (to_DWORD r, w).

Definition v_alloc_win_reserve (w : World) (size : Z) : Z * World :=
  let w :=
    if v_alloc_page_size w =? 0
    then let (p, w) := v_alloc_win_get_page_size w in set_page_size p w
    else w in
  syscall K (VirtualAlloc NULL size MEM_RESERVE PAGE_NOACCESS) w.

Definition v_alloc_win_commit (w : World)
    (addr total_size additional_bytes : Z) : bool * World :=
  let (result, w) :=
    syscall K (VirtualAlloc addr total_size MEM_COMMIT PAGE_READWRITE) w in
  (negb (result =? NULL), w).

Definition v_alloc_win_decommit (w : World) (addr extra_size : Z)
    : bool * World :=
  let (success, w) :=
    syscall K (VirtualFree addr MEM_DECOMMIT (to_DWORD extra_size)) w in
  (negb (success =? 0), w).

Definition v_alloc_win_release (w : World) (addr size : Z)
    : bool * World :=
  let (r, w) := syscall K (VirtualFree addr 0 MEM_RELEASE) w in
  (negb (r =? 0), w).

Definition v_alloc (t : Target) : V_Allocator :=
  match t with
  | POSIX => mkV_Allocator v_alloc_posix_reserve v_alloc_posix_commit
               v_alloc_posix_decommit v_alloc_posix_release
  | WIN32 => mkV_Allocator v_alloc_win_reserve v_alloc_win_commit
               v_alloc_win_decommit v_alloc_win_release
  end.

End Providers.

End Platform.

Import Platform.

(* ================================================================== *)
(** ** The arena allocator *)

Section Arena.

Variable v_alloc : V_Allocator.

Definition v_alloc_reserve (w : World) (alloc_info : AllocInfo)
    (reserve_size : Z) : bool * AllocInfo * World :=
  let (p, w) := reserve v_alloc w reserve_size in
  let alloc_info := set_base p alloc_info in
  if base alloc_info =? NULL then (false, alloc_info, w)
  else
    (true,
     mkAllocInfo (base alloc_info) (base alloc_info) (base alloc_info)
       reserve_size (v_alloc_page_size w),
     w).

(** The lazy default reservation shared by [v_alloc_committ] and
    [v_alloc_resize]: [if (base == 0) { if (!v_alloc_reserve(..)) return
    NULL; }]. *)
Definition reserve_default (w : World) (alloc_info : AllocInfo)
    : bool * AllocInfo * World :=
  if base alloc_info =? 0
  then v_alloc_reserve w alloc_info MAX_ARENA_CAPACITY
  else (true, alloc_info, w).

Definition v_alloc_committ (w : World) (alloc_info : AllocInfo)
    (additional_bytes : Z) : Z * AllocInfo * World :=
  if additional_bytes =? 0 then (NULL, alloc_info, w)
  else
    let additional_bytes := ALIGN_UP additional_bytes V_ALLOC_ALIGNMENT in
    let bump (alloc_info : AllocInfo) (w : World) :=
      (ptr alloc_info,
       set_ptr (wrap_ptr (ptr alloc_info + additional_bytes)) alloc_info,
       w) in
    if additional_bytes >? to_size_t (end_ alloc_info - ptr alloc_info)
    then
      let '(reserved, alloc_info, w) := reserve_default w alloc_info in
      if negb reserved then (NULL, alloc_info, w)
      else
        let adjusted_additional_bytes :=
          ALIGN_UP additional_bytes (page_size alloc_info) in
        if wrap_ptr (ptr alloc_info + adjusted_additional_bytes)
           >? wrap_ptr (base alloc_info + reserved_size alloc_info)
        then (NULL, alloc_info, w)
        else
          let new_size :=
            to_size_t (end_ alloc_info - base alloc_info
                       + adjusted_additional_bytes) in
          let (r, w) :=
            commit v_alloc w (base alloc_info) new_size
              adjusted_additional_bytes in
          let result := Z.b2z r in
          if result =? -1 then (NULL, alloc_info, w)
          else
            bump (set_end (wrap_ptr (base alloc_info + new_size)) alloc_info)
              w
    else bump alloc_info w.

(** [alloc_info] may be a null pointer here: the source tests it. *)
Definition v_alloc_reset (alloc_info : option AllocInfo)
    : option AllocInfo :=
  match alloc_info with
  | Some ai => Some (set_ptr (base ai) ai)
  | None => None
  end.

Definition v_alloc_decommit (w : World) (alloc_info : option AllocInfo)
    (extra_size : Z) : bool * option AllocInfo * World :=
  match alloc_info with
  | None => (false, None, w)
  | Some ai =>
    if extra_size =? 0 then (false, Some ai, w)
    else
      let extra_size := ALIGN_UP extra_size (page_size ai) in
      if extra_size >? to_size_t (end_ ai - base ai)
      then (false, Some ai, w)
      else
        let decommit_start :=
          ALIGN_DOWN_PTR (end_ ai - extra_size) (page_size ai) in
        let (result, w) := decommit v_alloc w decommit_start extra_size in
        if result then (true, Some (set_end decommit_start ai), w)
        else (false, Some ai, w)
  end.

Definition v_alloc_free (w : World) (alloc_info : AllocInfo)
    : bool * AllocInfo * World :=
  if base alloc_info =? NULL then (false, alloc_info, w)
  else
    let (r, w) :=
      release v_alloc w (base alloc_info) (reserved_size alloc_info) in
    (r, alloc_info, w).

Definition v_alloc_resize (w : World) (alloc_info : AllocInfo)
    (size_in_bytes : Z) : Z * AllocInfo * World :=
  if size_in_bytes =? 0
  then
    let '(_, alloc_info, w) := v_alloc_free w alloc_info in
    (NULL, alloc_info, w)
  else if size_in_bytes >? to_size_t (end_ alloc_info - base alloc_info)
  then
    let '(reserved, alloc_info, w) := reserve_default w alloc_info in
    if negb reserved then (NULL, alloc_info, w)
    else
      let adjusted_size_in_bytes :=
        ALIGN_UP size_in_bytes (page_size alloc_info) in
      if wrap_ptr (adjusted_size_in_bytes + base alloc_info)
         >? wrap_ptr (base alloc_info + reserved_size alloc_info)
      then (NULL, alloc_info, w)
      else
        let additional_bytes :=
          to_size_t (adjusted_size_in_bytes
                     - (end_ alloc_info - base alloc_info)) in
        let (r, w) :=
          commit v_alloc w (base alloc_info) adjusted_size_in_bytes
            additional_bytes in
        let result := Z.b2z r in
        if result =? -1 then (NULL, alloc_info, w)
        else
          let alloc_info :=
            set_end (wrap_ptr (base alloc_info + adjusted_size_in_bytes))
              alloc_info in
          let alloc_info := set_ptr (end_ alloc_info) alloc_info in
          (base alloc_info, alloc_info, w)
  else (base alloc_info, alloc_info, w).

End Arena.

(* ================================================================== *)
(** ** The growable allocation *)

(** [sizeof(AllocInfo)]: three pointers and two [size_t], eight bytes each. *)
Definition sizeof_AllocInfo : Z := 40.

(** [offsetof(AllocHdr, data)]: the flexible array member is
    [_Alignas(V_ALLOC_ALIGNMENT)]. *)
Definition offsetof_AllocHdr_data : Z :=
  ALIGN_UP sizeof_AllocInfo V_ALLOC_ALIGNMENT.

(** The descriptors stored in memory, by the address of their header. *)
Definition Mem : Type := Z -> AllocInfo.

Definition store (m : Mem) (a : Z) (ai : AllocInfo) : Mem :=
  fun x => if x =? a then ai else m x.

Definition v_alloc_hdr_from_data (data : Z) : Z :=
  data - offsetof_AllocHdr_data.

(** [alloc_hdr->data] *)
Definition hdr_data (alloc_hdr : Z) : Z := alloc_hdr + offsetof_AllocHdr_data.

Section Growable.

Variable v_alloc : V_Allocator.

Definition v_alloc_realloc (w : World) (m : Mem) (data total_size : Z)
    : Z * Mem * World :=
  if total_size =? 0
  then
    if data =? NULL then (NULL, m, w)
    else
      let alloc_hdr := v_alloc_hdr_from_data data in
      let '(_, alloc_info, w) := v_alloc_free v_alloc w (m alloc_hdr) in
      (NULL, store m alloc_hdr alloc_info, w)
  else
    let total_size := to_size_t (total_size + offsetof_AllocHdr_data) in
    if data =? NULL
    then
      let '(r, alloc_info, w) :=
        v_alloc_resize v_alloc w zero_info total_size in
      if r =? NULL then (NULL, m, w)
      else
        let alloc_hdr := base alloc_info in
        (hdr_data alloc_hdr, store m alloc_hdr alloc_info, w)
    else
      let alloc_hdr := v_alloc_hdr_from_data data in
      let '(r, alloc_info, w) :=
        v_alloc_resize v_alloc w (m alloc_hdr) total_size in
      let m := store m alloc_hdr alloc_info in
      if r =? NULL then (NULL, m, w) else (hdr_data alloc_hdr, m, w).

(** A caller that keeps resizing one allocation, passing on the pointer it
    got from the previous call; the pointers returned, in order. *)
Fixpoint realloc_chain (w : World) (m : Mem) (data : Z) (sizes : list Z)
    : list Z :=
  match sizes with
  | [] => []
  | total_size :: rest =>
    let '(p, m, w) := v_alloc_realloc w m data total_size in
    p :: realloc_chain w m p rest
  end.

(** Successive [v_alloc_committ] calls on one arena: the pairs of returned
    pointer and aligned size, in order, and the final descriptor. *)
Fixpoint committ_chain (w : World) (alloc_info : AllocInfo)
    (sizes : list Z) : list (Z * Z) * AllocInfo * World :=
  match sizes with
  | [] => ([], alloc_info, w)
  | n :: rest =>
    let '(p, alloc_info, w) := v_alloc_committ v_alloc w alloc_info n in
    let '(ranges, alloc_info, w) := committ_chain w alloc_info rest in
    ((p, ALIGN_UP n V_ALLOC_ALIGNMENT) :: ranges, alloc_info, w)
  end.

End Growable.

(* ================================================================== *)
(** ** Predicates on descriptors *)

(** The invariant of the data model. *)
Definition invariant (ai : AllocInfo) : Prop :=
  base ai <= ptr ai /\ ptr ai <= end_ ai
  /\ end_ ai <= base ai + reserved_size ai
  /\ (end_ ai - base ai) mod page_size ai = 0.

(** A descriptor that holds a reservation. *)
Record reserved (ai : AllocInfo) : Prop := mkReserved {
  reserved_base : base ai <> NULL;
  reserved_size_range : is_size_t (reserved_size ai);
  reserved_page_range : 0 < page_size ai < size_t_modulus;
  reserved_invariant : invariant ai
}.

(** Neither rounding of a request of [n] bytes wraps: to the allocation
    alignment, then to the page size. *)
Definition rounding_fits (page n : Z) : Prop :=
  0 <= n
  /\ n + (V_ALLOC_ALIGNMENT - 1) < size_t_modulus
  /\ ALIGN_UP n V_ALLOC_ALIGNMENT + (page - 1) < size_t_modulus.

(** A request of [n] bytes for which no number the call computes wraps:
    neither rounding, and no address up to twice the reservation past [base]
    plus the page-rounded request (the committed end can lie that far). *)
Definition request_fits (ai : AllocInfo) (n : Z) : Prop :=
  rounding_fits (page_size ai) n
  /\ base ai + 2 * reserved_size ai
     + ALIGN_UP (ALIGN_UP n V_ALLOC_ALIGNMENT) (page_size ai)
     < size_t_modulus.

(** What successive successful [v_alloc_committ] calls keep true of an
    arena, also where the committed end has passed the reservation. *)
Record bumpable (ai : AllocInfo) : Prop := mkBumpable {
  bumpable_base : 0 < base ai;
  bumpable_page : 0 < page_size ai < size_t_modulus;
  bumpable_size : 0 <= reserved_size ai;
  bumpable_order : base ai <= ptr ai /\ ptr ai <= end_ ai;
  bumpable_headroom : end_ ai - ptr ai <= reserved_size ai;
  bumpable_span : end_ ai - base ai <= 2 * reserved_size ai;
  bumpable_aligned : ptr ai mod V_ALLOC_ALIGNMENT = 0
}.

(** A returned range [(p, len)] lies before another one. *)
Definition range_before (r1 r2 : Z * Z) : Prop :=
  fst r1 < fst r2 /\ fst r1 + snd r1 <= fst r2.

(** The release call each provider makes for a descriptor. *)
Definition release_call (t : Target) (ai : AllocInfo) : SysCall :=
  match t with
  | POSIX => Munmap (base ai) (reserved_size ai)
  | WIN32 => VirtualFree (base ai) 0 MEM_RELEASE
  end.

(** The three components of what an operation returns. *)
Definition result_of {A B C : Type} (x : A * B * C) : A := fst (fst x).
Definition info_of {A B C : Type} (x : A * B * C) : B := snd (fst x).
Definition world_of {A B C : Type} (x : A * B * C) : C := snd x.

(* ================================================================== *)
(** ** Sample inputs *)

(** A kernel on which every call succeeds: pages of 4096 bytes, every
    reservation answered at address 16 MiB. *)
Definition kernel_ok : Kernel :=
  fun _ c =>
    match c with
    | Sysconf_PAGESIZE => 4096
    | GetSystemInfo_dwPageSize => 4096
    | Mmap _ => 16777216
    | VirtualAlloc addr _ _ _ => if addr =? NULL then 16777216 else addr
    | VirtualFree _ _ _ => 1
    | Mprotect _ _ _ | Madvise_DONTNEED _ _ | Munmap _ _ => 0
    end.

(** The same kernel, except that granting access to pages always fails:
    [mprotect] to read/write answers -1 and a committing [VirtualAlloc]
    answers [NULL]. *)
Definition kernel_commit_fails : Kernel :=
  fun h c =>
    match c with
    | Mprotect _ _ prot => if prot =? PROT_READ_WRITE then -1 else 0
    | VirtualAlloc addr _ alloc_type _ =>
      if alloc_type =? MEM_COMMIT then NULL else kernel_ok h c
    | _ => kernel_ok h c
    end.

Definition world0 : World := mkWorld [] 0.

(** An arena of two pages at 16 MiB with one page committed and 48 bytes
    handed out. *)
Definition sample_info : AllocInfo :=
  mkAllocInfo 16777216 (16777216 + 48) (16777216 + 4096) 8192 4096.

(** The POSIX provider over the kernel on which every call succeeds. *)
Definition posix_ok : V_Allocator := v_alloc kernel_ok POSIX.

(** [v_alloc_realloc(NULL, 64)] in a fresh process. *)
Definition created : Z * Mem * World :=
  v_alloc_realloc posix_ok world0 (fun _ => zero_info) NULL 64.

(** A freshly reserved arena of [reserve_size] bytes at 16 MiB. *)
Definition fresh_info (reserve_size : Z) : AllocInfo :=
  mkAllocInfo 16777216 16777216 16777216 reserve_size 4096.

(** The sample arena after a reset: the cursor is back at [base]. *)
Definition rewound_info : AllocInfo := set_ptr (base sample_info) sample_info.

(** An arena of two pages whose first page was committed by an allocation
    of 4096 bytes and whose cursor was then reset. *)
Definition half_committed_info : AllocInfo :=
  mkAllocInfo 16777216 16777216 (16777216 + 4096) 8192 4096.

(** The commit call each provider makes for [total_size] bytes from [addr]
    of which [additional_bytes] are new. *)
Definition commit_call (t : Target) (addr total_size additional_bytes : Z)
    : SysCall :=
  match t with
  | POSIX => Mprotect (addr + total_size - additional_bytes) additional_bytes
               PROT_READ_WRITE
  | WIN32 => VirtualAlloc addr total_size MEM_COMMIT PAGE_READWRITE
  end.

(* ================================================================== *)
(** ** Platform calls and layouts, for the statements about whole runs *)

(** The page-size query each provider makes, and the value it caches for
    an answer: POSIX keeps a positive [s32], Windows the [DWORD]. *)
Definition page_query (t : Target) : SysCall :=
  match t with
  | POSIX => Sysconf_PAGESIZE
  | WIN32 => GetSystemInfo_dwPageSize
  end.

Definition queried_page_size (t : Target) (answer : Z) : Z :=
  match t with
  | POSIX => if to_s32 answer <=? 0 then 0 else to_size_t (to_s32 answer)
  | WIN32 => to_DWORD answer
  end.

(** The reservation call each provider makes, and the answers it reports as
    a failed reservation. *)
Definition reserve_call (t : Target) (size : Z) : SysCall :=
  match t with
  | POSIX => Mmap size
  | WIN32 => VirtualAlloc NULL size MEM_RESERVE PAGE_NOACCESS
  end.

Definition reserve_refused (t : Target) (answer : Z) : Prop :=
  answer = NULL \/ (t = POSIX /\ answer = MAP_FAILED).

(** The calls the POSIX decommit of [size] bytes at [addr] makes when the
    first one is answered with success, most recent first. *)
Definition posix_decommit_calls (addr size : Z) : list SysCall :=
  [Mprotect addr size PROT_NONE; Madvise_DONTNEED addr size].

(** The one call of the Windows decommit, with its arguments in the order
    the source passes them: [MEM_DECOMMIT] where [VirtualFree] expects the
    size, and the size, cut to a [DWORD], where it expects the free type. *)
Definition win_decommit_call (addr size : Z) : SysCall :=
  VirtualFree addr MEM_DECOMMIT (to_DWORD size).

(** The commit call as each provider issues it for [additional_bytes] new
    bytes that start at [tail], in a region at [addr] of [total_size] bytes
    in all: POSIX changes the protection of the tail, Windows commits the
    whole prefix again. *)
Definition tail_commit_call (t : Target)
    (addr tail total_size additional_bytes : Z) : SysCall :=
  match t with
  | POSIX => Mprotect tail additional_bytes PROT_READ_WRITE
  | WIN32 => VirtualAlloc addr total_size MEM_COMMIT PAGE_READWRITE
  end.

(** Requests laid out back to back from address [p], each rounded up to the
    allocation alignment; and the bytes they take together. *)
Fixpoint layout (p : Z) (sizes : list Z) : list (Z * Z) :=
  match sizes with
  | [] => []
  | n :: rest =>
    (p, ALIGN_UP n V_ALLOC_ALIGNMENT)
      :: layout (p + ALIGN_UP n V_ALLOC_ALIGNMENT) rest
  end.

Fixpoint total_aligned (sizes : list Z) : Z :=
  match sizes with
  | [] => 0
  | n :: rest => ALIGN_UP n V_ALLOC_ALIGNMENT + total_aligned rest
  end.

(** The WIN32 provider over the kernel on which every call succeeds. *)
Definition win_ok : V_Allocator := v_alloc kernel_ok WIN32.

(** A world in which the page size is already cached. *)
Definition world_paged : World := mkWorld [] 4096.

(* ================================================================== *)
(** ** Proof steps used throughout *)

(** Reduce field accesses of updated descriptors, nothing else. *)
Ltac simpl_info :=
  cbn [base ptr end_ reserved_size page_size set_base set_ptr set_end] in *.

(* ================================================================== *)
(** ** Arithmetic of alignment *)

Lemma to_size_t_small (x : Z) : is_size_t x -> to_size_t x = x.
Proof.
  unfold is_size_t, to_size_t. intros H. apply Z.mod_small. exact H.
Qed.

Lemma to_size_t_range (x : Z) : is_size_t (to_size_t x).
Proof.
  unfold is_size_t, to_size_t. apply Z.mod_pos_bound. reflexivity.
Qed.

Lemma ALIGN_DOWN_multiple (n a : Z) : ALIGN_DOWN n a mod a = 0.
Proof. unfold ALIGN_DOWN. apply Z_mod_mult. Qed.

Lemma ALIGN_DOWN_bounds (n a : Z) :
  0 < a -> n - a < ALIGN_DOWN n a <= n.
Proof.
  intros Ha. unfold ALIGN_DOWN.
  pose proof (Z.div_mod n a ltac:(lia)) as Hdm.
  pose proof (Z.mod_pos_bound n a Ha) as Hb.
  lia.
Qed.

Lemma ALIGN_DOWN_fixed (n a : Z) :
  0 < a -> n mod a = 0 -> ALIGN_DOWN n a = n.
Proof.
  intros Ha Hm. unfold ALIGN_DOWN.
  pose proof (Z.div_mod n a ltac:(lia)) as Hdm. lia.
Qed.

Lemma multiple_between (x y a : Z) :
  0 < a -> x mod a = 0 -> y mod a = 0 -> x - a < y -> y < x + a -> x = y.
Proof.
  intros Ha Hx Hy H1 H2.
  pose proof (Z.div_mod x a ltac:(lia)) as Dx.
  pose proof (Z.div_mod y a ltac:(lia)) as Dy.
  rewrite Hx in Dx. rewrite Hy in Dy.
  assert (x / a = y / a) by nia.
  congruence.
Qed.

(** Rounding up is exact as long as the [size_t] sum does not wrap. *)
Lemma ALIGN_UP_exact (n a : Z) :
  0 <= n -> 0 < a -> n + (a - 1) < size_t_modulus ->
  n <= ALIGN_UP n a < n + a /\ ALIGN_UP n a mod a = 0.
Proof.
  intros Hn Ha Hfit. unfold ALIGN_UP.
  rewrite to_size_t_small by (unfold is_size_t; lia).
  pose proof (ALIGN_DOWN_bounds (n + (a - 1)) a Ha).
  split; [lia | apply ALIGN_DOWN_multiple].
Qed.

Lemma ALIGN_UP_fixed (n a : Z) :
  0 <= n -> 0 < a -> n + (a - 1) < size_t_modulus -> n mod a = 0 ->
  ALIGN_UP n a = n.
Proof.
  intros Hn Ha Hfit Hm.
  destruct (ALIGN_UP_exact n a Hn Ha Hfit) as [Hb Hmul].
  symmetry. apply (multiple_between n (ALIGN_UP n a) a); auto; lia.
Qed.

Lemma ALIGN_UP_least (n m a : Z) :
  0 <= n -> 0 < a -> n + (a - 1) < size_t_modulus ->
  n <= m -> m mod a = 0 -> ALIGN_UP n a <= m.
Proof.
  intros Hn Ha Hfit Hle Hm.
  destruct (ALIGN_UP_exact n a Hn Ha Hfit) as [Hb Hmul].
  pose proof (Z.div_mod m a ltac:(lia)) as Dm.
  pose proof (Z.div_mod (ALIGN_UP n a) a ltac:(lia)) as Du.
  rewrite Hm in Dm. rewrite Hmul in Du.
  assert (ALIGN_UP n a / a <= m / a) by nia.
  nia.
Qed.

Lemma ALIGN_UP_range (n a : Z) : 0 < a -> is_size_t (ALIGN_UP n a).
Proof.
  intros Ha. unfold ALIGN_UP.
  pose proof (to_size_t_range (n + (a - 1))) as Hr.
  pose proof (ALIGN_DOWN_bounds (to_size_t (n + (a - 1))) a Ha) as Hb.
  unfold is_size_t in *.
  assert (0 <= ALIGN_DOWN (to_size_t (n + (a - 1))) a).
  { unfold ALIGN_DOWN. apply Z.mul_nonneg_nonneg; [|lia].
    apply Z.div_pos; lia. }
  lia.
Qed.

(** For a power of two the bit mask computes the same rounding. *)
Lemma ALIGN_DOWN_mask_pow2 (n k : Z) :
  0 <= k -> ALIGN_DOWN_mask n (2 ^ k) = ALIGN_DOWN n (2 ^ k).
Proof.
  intros Hk. unfold ALIGN_DOWN_mask, ALIGN_DOWN.
  rewrite <- Z.ldiff_land.
  replace (2 ^ k - 1) with (Z.ones k) by (rewrite Z.ones_equiv; lia).
  rewrite Z.ldiff_ones_r by exact Hk.
  rewrite Z.shiftl_mul_pow2, Z.shiftr_div_pow2 by exact Hk.
  reflexivity.
Qed.

Lemma gtb_false (x y : Z) : x <= y -> (x >? y) = false.
Proof. intros H. rewrite Z.gtb_ltb. apply Z.ltb_ge. exact H. Qed.

Lemma gtb_true (x y : Z) : y < x -> (x >? y) = true.
Proof. intros H. rewrite Z.gtb_ltb. apply Z.ltb_lt. exact H. Qed.

Lemma eqb_false (x y : Z) : x <> y -> (x =? y) = false.
Proof. intros H. apply Z.eqb_neq. exact H. Qed.

Lemma triple_eta {A B C : Type} (x : A * B * C) :
  x = (result_of x, info_of x, world_of x).
Proof. destruct x as [[a b] c]. reflexivity. Qed.

Lemma ALIGN_UP_mask_pow2 (n k : Z) :
  0 <= k -> ALIGN_UP_mask n (2 ^ k) = ALIGN_UP n (2 ^ k).
Proof. intros Hk. apply ALIGN_DOWN_mask_pow2. exact Hk. Qed.

(** The header offset is 48 bytes. *)
Lemma offsetof_AllocHdr_data_value : offsetof_AllocHdr_data = 48.
Proof. reflexivity. Qed.

(** A [bool] converted to [int] is 0 or 1: the test [result == -1] that
    follows every [v_alloc.commit] call never holds. *)
Lemma commit_result_not_minus_one (r : bool) : (Z.b2z r =? -1) = false.
Proof. destruct r; reflexivity. Qed.

Lemma committed_size_cast (ai : AllocInfo) :
  reserved ai -> to_size_t (end_ ai - base ai) = end_ ai - base ai.
Proof.
  intros [_ Hs _ (Hbp & Hpe & Heb & _)].
  apply to_size_t_small. unfold is_size_t in *. lia.
Qed.

Lemma headroom_cast (ai : AllocInfo) :
  reserved ai -> to_size_t (end_ ai - ptr ai) = end_ ai - ptr ai.
Proof.
  intros [_ Hs _ (Hbp & Hpe & Heb & _)].
  apply to_size_t_small. unfold is_size_t in *. lia.
Qed.

Lemma sample_info_reserved : reserved sample_info.
Proof.
  constructor; unfold invariant, is_size_t, NULL; simpl.
  - discriminate.
  - split; [lia | reflexivity].
  - split; reflexivity.
  - repeat split; try lia; reflexivity.
Qed.

Lemma wrap_ptr_small (x : Z) : 0 <= x < size_t_modulus -> wrap_ptr x = x.
Proof. intros H. unfold wrap_ptr. apply Z.mod_small. exact H. Qed.

Lemma wrap_ptr_le (x : Z) : 0 <= x -> wrap_ptr x <= x.
Proof. intros H. unfold wrap_ptr. apply Z.mod_le; [exact H | reflexivity]. Qed.

Lemma wrap_ptr_range (x : Z) : 0 <= wrap_ptr x < size_t_modulus.
Proof. unfold wrap_ptr. apply Z.mod_pos_bound. reflexivity. Qed.

(* ================================================================== *)
(** ** Zero-size requests *)

Lemma committ_zero (va : V_Allocator) (w : World) (ai : AllocInfo) :
  v_alloc_committ va w ai 0 = (NULL, ai, w).
Proof. reflexivity. Qed.

(** C5. [v_alloc_committ] with a request of zero bytes returns [NULL] and
    leaves the descriptor, reserved or not, and the platform untouched. *)
Theorem committ_zero_rejected :
  forall (va : V_Allocator) (w : World) (ai : AllocInfo),
    v_alloc_committ va w ai 0 = (NULL, ai, w).
Proof. intros va w ai. apply committ_zero. Qed.

(* ================================================================== *)
(** ** Resizing within the committed region *)

(** C8. On a reserved descriptor a resize to a size between 1 and the
    committed size returns [base] and changes nothing: the descriptor (so
    [end_] and [reserved_size]) and the world (so no platform call, in
    particular no decommit) are the ones it was given. *)
Theorem resize_within_committed :
  forall (va : V_Allocator) (w : World) (ai : AllocInfo) (size_in_bytes : Z),
    reserved ai ->
    0 < size_in_bytes <= end_ ai - base ai ->
    v_alloc_resize va w ai size_in_bytes = (base ai, ai, w)
    /\ base ai <> NULL.
Proof.
  intros va w ai n Hres [Hpos Hle].
  split; [|exact (reserved_base ai Hres)].
  unfold v_alloc_resize.
  rewrite eqb_false by lia.
  rewrite (committed_size_cast ai Hres).
  rewrite gtb_false by lia.
  reflexivity.
Qed.

Lemma resize_within_committed_witness :
  reserved sample_info
  /\ 0 < 100 <= end_ sample_info - base sample_info
  /\ v_alloc_resize (v_alloc kernel_ok POSIX) world0 sample_info 100
     = (base sample_info, sample_info, world0).
Proof.
  assert (H : 0 < 100 <= end_ sample_info - base sample_info)
    by (simpl; lia).
  split; [exact sample_info_reserved | split; [exact H |]].
  exact (proj1 (resize_within_committed (v_alloc kernel_ok POSIX) world0
                  sample_info 100 sample_info_reserved H)).
Defined.

(* ================================================================== *)
(** ** Release *)

(** C10. [v_alloc_free] on a descriptor with a non-null [base] calls the
    platform release on [base] and [reserved_size] and returns the
    descriptor with every field as it was, so [base] stays non-null and a
    second [v_alloc_free] makes the same release call again. *)
Theorem free_keeps_descriptor :
  forall (K : Kernel) (t : Target) (w : World) (ai : AllocInfo),
    base ai <> NULL ->
    exists (r1 r2 : bool) (w1 w2 : World),
      v_alloc_free (v_alloc K t) w ai = (r1, ai, w1)
      /\ history w1 = release_call t ai :: history w
      /\ v_alloc_free (v_alloc K t) w1 ai = (r2, ai, w2)
      /\ history w2 = release_call t ai :: release_call t ai :: history w.
Proof.
  intros K t w ai Hb.
  unfold v_alloc_free.
  rewrite eqb_false by exact Hb.
  destruct t; simpl.
  - eexists _, _, _, _. repeat split.
  - eexists _, _, _, _. repeat split.
Qed.

Lemma free_keeps_descriptor_witness :
  base sample_info <> NULL
  /\ exists (r1 r2 : bool) (w1 w2 : World),
      v_alloc_free (v_alloc kernel_ok POSIX) world0 sample_info
      = (r1, sample_info, w1)
      /\ history w1 = release_call POSIX sample_info :: history world0
      /\ v_alloc_free (v_alloc kernel_ok POSIX) w1 sample_info
         = (r2, sample_info, w2)
      /\ history w2
         = release_call POSIX sample_info :: release_call POSIX sample_info
             :: history world0.
Proof.
  assert (H : base sample_info <> NULL) by (simpl; discriminate).
  split; [exact H |].
  exact (free_keeps_descriptor kernel_ok POSIX world0 sample_info H).
Defined.

(* ================================================================== *)
(** ** Pointer stability *)

Lemma reserve_default_base (va : V_Allocator) (w w' : World)
    (ai ai' : AllocInfo) :
  reserve_default va w ai = (true, ai', w') ->
  base ai <> NULL -> ai' = ai /\ w' = w.
Proof.
  unfold reserve_default. intros H Hb.
  rewrite eqb_false in H by exact Hb.
  injection H as <- <-. split; reflexivity.
Qed.

Lemma resize_returns_base (va : V_Allocator) (w w' : World)
    (ai ai' : AllocInfo) (n p : Z) :
  v_alloc_resize va w ai n = (p, ai', w') ->
  p <> NULL ->
  p = base ai' /\ (base ai <> NULL -> base ai' = base ai).
Proof.
  unfold v_alloc_resize. intros H Hp.
  destruct (n =? 0).
  { destruct (v_alloc_free va w ai) as [[? ?] ?].
    injection H as <- _ _. contradiction. }
  destruct (n >? to_size_t (end_ ai - base ai)).
  2:{ injection H as <- <- _. split; reflexivity. }
  destruct (reserve_default va w ai) as [[ok ai1] w1] eqn:Hrd.
  destruct ok; simpl in H.
  2:{ injection H as <- _ _. contradiction. }
  destruct (_ >? _).
  { injection H as <- _ _. contradiction. }
  destruct (commit va w1 _ _ _) as [r w2].
  rewrite commit_result_not_minus_one in H.
  injection H as <- <- _. simpl. split; [reflexivity |].
  intros Hb. destruct (reserve_default_base va w w1 ai ai1 Hrd Hb) as [-> _].
  reflexivity.
Qed.

Lemma realloc_returns_data (va : V_Allocator) (w w' : World) (m m' : Mem)
    (data total_size p : Z) :
  v_alloc_realloc va w m data total_size = (p, m', w') ->
  data <> NULL -> p <> NULL -> p = data.
Proof.
  unfold v_alloc_realloc. intros H Hd Hp.
  rewrite (eqb_false data NULL Hd) in H.
  destruct (total_size =? 0).
  { destruct (v_alloc_free va w _) as [[? ?] ?].
    injection H as <- _ _. contradiction. }
  destruct (v_alloc_resize va w _ _) as [[r ai'] w1].
  destruct (r =? NULL).
  { injection H as <- _ _. contradiction. }
  injection H as <- _ _.
  unfold hdr_data, v_alloc_hdr_from_data. lia.
Qed.

Lemma realloc_chain_stable (va : V_Allocator) (sizes : list Z) :
  forall (w : World) (m : Mem) (data : Z),
    data <> NULL ->
    Forall (fun p => p <> NULL) (realloc_chain va w m data sizes) ->
    Forall (fun p => p = data) (realloc_chain va w m data sizes).
Proof.
  induction sizes as [|n rest IH]; intros w m data Hd Hall; simpl in *.
  - constructor.
  - destruct (v_alloc_realloc va w m data n) as [[p m1] w1] eqn:Hstep.
    inversion Hall as [|? ? Hp Hrest]; subst.
    pose proof (realloc_returns_data va w w1 m m1 data n p Hstep Hd Hp) as ->.
    constructor; [reflexivity |].
    apply IH; assumption.
Qed.

(** C1. A [v_alloc_realloc] call on a non-null data pointer that succeeds
    returns the pointer it was given; so does every call of a chain of
    resizes of one allocation in which all calls succeed; and a successful
    [v_alloc_resize] returns the [base] of the descriptor, which is the
    [base] the descriptor had whenever that was non-null. *)
Theorem pointer_stability :
  forall va : V_Allocator,
    (forall (w w' : World) (m m' : Mem) (data total_size p : Z),
        v_alloc_realloc va w m data total_size = (p, m', w') ->
        data <> NULL -> p <> NULL -> p = data)
    /\ (forall (sizes : list Z) (w : World) (m : Mem) (data : Z),
        data <> NULL ->
        Forall (fun p => p <> NULL) (realloc_chain va w m data sizes) ->
        Forall (fun p => p = data) (realloc_chain va w m data sizes))
    /\ (forall (w w' : World) (ai ai' : AllocInfo) (n p : Z),
        v_alloc_resize va w ai n = (p, ai', w') ->
        p <> NULL ->
        p = base ai' /\ (base ai <> NULL -> base ai' = base ai)).
Proof.
  intros va. split; [|split].
  - apply realloc_returns_data.
  - apply realloc_chain_stable.
  - apply resize_returns_base.
Qed.

Lemma pointer_stability_witness :
  (result_of created <> NULL
   /\ result_of (v_alloc_realloc posix_ok (world_of created) (info_of created)
                   (result_of created) 128)
      = result_of created)
  /\ Forall (fun p => p = result_of created)
       (realloc_chain posix_ok (world_of created) (info_of created)
          (result_of created) [128; 100000; 10])
  /\ result_of (v_alloc_resize posix_ok world0 sample_info 5000)
     = base sample_info.
Proof.
  destruct (pointer_stability posix_ok) as (Hcall & Hchain & Hresize).
  assert (Hd : result_of created <> NULL) by (vm_compute; discriminate).
  split; [split; [exact Hd |] | split].
  - apply (Hcall _ _ _ _ _ _ _ (triple_eta _) Hd).
    vm_compute; discriminate.
  - apply (Hchain _ _ _ _ Hd).
    vm_compute. repeat constructor; discriminate.
  - assert (Hp : result_of (v_alloc_resize posix_ok world0 sample_info 5000)
                 <> NULL) by (vm_compute; discriminate).
    destruct (Hresize _ _ _ _ _ _ (triple_eta _) Hp) as [Hret Hsame].
    rewrite Hret. apply Hsame. simpl; discriminate.
Defined.

(* ================================================================== *)
(** ** The ways through [v_alloc_committ] on a reserved arena *)

Lemma committ_fits (va : V_Allocator) (w : World) (ai : AllocInfo) (n : Z) :
  n <> 0 ->
  ALIGN_UP n V_ALLOC_ALIGNMENT <= to_size_t (end_ ai - ptr ai) ->
  v_alloc_committ va w ai n
  = (ptr ai,
     set_ptr (wrap_ptr (ptr ai + ALIGN_UP n V_ALLOC_ALIGNMENT)) ai, w).
Proof.
  intros Hn Hfit. unfold v_alloc_committ.
  rewrite (eqb_false n 0 Hn).
  rewrite (gtb_false _ _ Hfit). reflexivity.
Qed.

(** The growing path: one bound test on wrapped addresses, then a commit
    whose answer is not looked at. *)
Lemma committ_growth (va : V_Allocator) (w : World) (ai : AllocInfo) (n : Z) :
  n <> 0 ->
  to_size_t (end_ ai - ptr ai) < ALIGN_UP n V_ALLOC_ALIGNMENT ->
  base ai <> NULL ->
  v_alloc_committ va w ai n
  = if wrap_ptr (ptr ai
                 + ALIGN_UP (ALIGN_UP n V_ALLOC_ALIGNMENT) (page_size ai))
       >? wrap_ptr (base ai + reserved_size ai)
    then (NULL, ai, w)
    else
      (ptr ai,
       set_ptr (wrap_ptr (ptr ai + ALIGN_UP n V_ALLOC_ALIGNMENT))
         (set_end
            (wrap_ptr
               (base ai
                + to_size_t
                    (end_ ai - base ai
                     + ALIGN_UP (ALIGN_UP n V_ALLOC_ALIGNMENT)
                         (page_size ai))))
            ai),
       snd (commit va w (base ai)
              (to_size_t
                 (end_ ai - base ai
                  + ALIGN_UP (ALIGN_UP n V_ALLOC_ALIGNMENT) (page_size ai)))
              (ALIGN_UP (ALIGN_UP n V_ALLOC_ALIGNMENT) (page_size ai)))).
Proof.
  intros Hn Hgrow Hb. unfold v_alloc_committ, reserve_default.
  rewrite (eqb_false n 0 Hn).
  rewrite (gtb_true _ _ Hgrow).
  rewrite (eqb_false (base ai) 0 Hb). simpl.
  destruct (wrap_ptr _ >? wrap_ptr _); [reflexivity |].
  destruct (commit va w (base ai) _ _) as [r w'].
  rewrite commit_result_not_minus_one. reflexivity.
Qed.

Lemma reserve_success (va : V_Allocator) (w w1 : World)
    (ai0 ai : AllocInfo) (reserve_size : Z) :
  v_alloc_reserve va w ai0 reserve_size = (true, ai, w1) ->
  base ai <> NULL
  /\ ai = mkAllocInfo (base ai) (base ai) (base ai) reserve_size
            (v_alloc_page_size w1).
Proof.
  unfold v_alloc_reserve. intros H.
  destruct (reserve va w reserve_size) as [p w'].
  simpl in H. destruct (p =? NULL) eqn:Hp.
  - discriminate.
  - injection H as <- <-. simpl. split; [|reflexivity].
    apply Z.eqb_neq. exact Hp.
Qed.

(* ================================================================== *)
(** ** Reuse after reset *)

Lemma reset_then_committ (va : V_Allocator) (w : World) (ai : AllocInfo)
    (S : Z) :
  reserved ai ->
  S <> 0 ->
  ALIGN_UP S V_ALLOC_ALIGNMENT <= end_ ai - base ai ->
  exists ai0 : AllocInfo,
    v_alloc_reset (Some ai) = Some ai0
    /\ ptr ai0 = base ai
    /\ v_alloc_committ va w ai0 S
       = (base ai,
          set_ptr (wrap_ptr (base ai + ALIGN_UP S V_ALLOC_ALIGNMENT)) ai0, w)
    /\ end_ (set_ptr (wrap_ptr (base ai + ALIGN_UP S V_ALLOC_ALIGNMENT)) ai0)
       = end_ ai
    /\ base ai <> NULL.
Proof.
  intros Hres HS Hfit.
  exists (set_ptr (base ai) ai).
  split; [reflexivity | split; [reflexivity | split; [| split]]].
  - rewrite committ_fits; [reflexivity | exact HS |].
    simpl. rewrite (committed_size_cast ai Hres). exact Hfit.
  - reflexivity.
  - exact (reserved_base ai Hres).
Qed.

(** The scenario: whatever the page size and the answers of the platform,
    once the reservation and the first allocation have succeeded, both
    allocations start at the arena base. *)
Lemma scenario_reserve_committ_reset_committ (va : V_Allocator)
    (w w1 w2 : World) (ai ai1 : AllocInfo) (p1 : Z) :
  v_alloc_reserve va w zero_info (1024 * 1024) = (true, ai, w1) ->
  v_alloc_committ va w1 ai 33 = (p1, ai1, w2) ->
  p1 <> NULL ->
  exists ai2 : AllocInfo,
    v_alloc_reset (Some ai1) = Some ai2
    /\ p1 = base ai
    /\ result_of (v_alloc_committ va w2 ai2 40) = base ai
    /\ base ai <> NULL.
Proof.
  intros Hres Hfirst Hp1.
  destruct (reserve_success va w w1 zero_info ai _ Hres) as [Hb Hshape].
  assert (Hptr : ptr ai = base ai) by (rewrite Hshape; reflexivity).
  assert (Hend : end_ ai = base ai) by (rewrite Hshape; reflexivity).
  assert (H33 : ALIGN_UP 33 V_ALLOC_ALIGNMENT = 48) by reflexivity.
  assert (H40 : ALIGN_UP 40 V_ALLOC_ALIGNMENT = 48) by reflexivity.
  rewrite committ_growth in Hfirst;
    [| discriminate
     | rewrite H33, Hend, Hptr, Z.sub_diag; reflexivity
     | exact Hb].
  rewrite H33 in Hfirst.
  destruct (wrap_ptr (ptr ai + ALIGN_UP 48 (page_size ai))
            >? wrap_ptr (base ai + reserved_size ai)) eqn:Htest.
  { injection Hfirst as <- _ _. contradiction. }
  injection Hfirst as <- <- _.
  exists (set_ptr (base ai)
            (set_ptr (wrap_ptr (ptr ai + 48))
               (set_end
                  (wrap_ptr
                     (base ai
                      + to_size_t
                          (end_ ai - base ai
                           + ALIGN_UP 48 (page_size ai))))
                  ai))).
  split; [reflexivity | split; [exact Hptr | split; [| exact Hb]]].
  match goal with
  | |- result_of (v_alloc_committ va w2 ?a 40) = _ => set (ai2 := a)
  end.
  assert (Hp2 : ptr ai2 = base ai) by reflexivity.
  assert (Hb2 : base ai2 = base ai) by reflexivity.
  destruct (Z_le_gt_dec (ALIGN_UP 40 V_ALLOC_ALIGNMENT)
              (to_size_t (end_ ai2 - ptr ai2))) as [Hfits | Hgrow].
  - rewrite committ_fits; [exact Hp2 | discriminate | exact Hfits].
  - rewrite committ_growth; [| discriminate | lia | rewrite Hb2; exact Hb].
    rewrite H40.
    replace (wrap_ptr (ptr ai2 + ALIGN_UP 48 (page_size ai2))
             >? wrap_ptr (base ai2 + reserved_size ai2)) with false.
    + exact Hp2.
    + rewrite <- Htest. rewrite Hptr. reflexivity.
Qed.

(** C6.  After [v_alloc_reset] of a reserved descriptor the cursor is
    [base]; the next [v_alloc_committ] of a size [S] of at least one byte
    (a request of 0 bytes is no allocation: the guard at the top of the
    function refuses it) whose 16-aligned size is at most [end_ - base]
    returns the non-null [base], leaves [end_] as it was and hands back the
    world it was given, so it makes no platform call.  And in the scenario
    reserve 1 MiB, allocate 33 bytes (48 after alignment), reset, allocate
    40 bytes, whatever the page size and the answers of the platform, once
    the reservation and the first allocation have succeeded the first
    allocation returns the arena base and so does the second. *)
Theorem reset_reuse :
  forall va : V_Allocator,
    (forall (w : World) (ai : AllocInfo) (S : Z),
        reserved ai ->
        0 < S ->
        ALIGN_UP S V_ALLOC_ALIGNMENT <= end_ ai - base ai ->
        exists ai0 : AllocInfo,
          v_alloc_reset (Some ai) = Some ai0
          /\ ptr ai0 = base ai
          /\ v_alloc_committ va w ai0 S
             = (base ai,
                set_ptr (wrap_ptr (base ai + ALIGN_UP S V_ALLOC_ALIGNMENT))
                  ai0,
                w)
          /\ end_ (set_ptr
                     (wrap_ptr (base ai + ALIGN_UP S V_ALLOC_ALIGNMENT)) ai0)
             = end_ ai
          /\ base ai <> NULL)
    /\ (forall (w w1 w2 : World) (ai ai1 : AllocInfo) (p1 : Z),
        v_alloc_reserve va w zero_info (1024 * 1024) = (true, ai, w1) ->
        v_alloc_committ va w1 ai 33 = (p1, ai1, w2) ->
        p1 <> NULL ->
        exists ai2 : AllocInfo,
          v_alloc_reset (Some ai1) = Some ai2
          /\ p1 = base ai
          /\ result_of (v_alloc_committ va w2 ai2 40) = base ai
          /\ base ai <> NULL).
Proof.
  intros va. split.
  - intros w ai S Hres HS Hfit.
    apply reset_then_committ; [exact Hres | lia | exact Hfit].
  - intros w w1 w2 ai ai1 p1.
    apply scenario_reserve_committ_reset_committ.
Qed.

Lemma reset_reuse_witness :
  (reserved sample_info
   /\ 0 < 40
   /\ ALIGN_UP 40 V_ALLOC_ALIGNMENT <= end_ sample_info - base sample_info
   /\ exists ai0 : AllocInfo,
       v_alloc_reset (Some sample_info) = Some ai0
       /\ ptr ai0 = base sample_info
       /\ v_alloc_committ posix_ok world0 ai0 40
          = (base sample_info,
             set_ptr
               (wrap_ptr (base sample_info + ALIGN_UP 40 V_ALLOC_ALIGNMENT))
               ai0,
             world0)
       /\ end_ (set_ptr
                  (wrap_ptr
                     (base sample_info + ALIGN_UP 40 V_ALLOC_ALIGNMENT))
                  ai0)
          = end_ sample_info
       /\ base sample_info <> NULL)
  /\ (let r := v_alloc_reserve posix_ok world0 zero_info (1024 * 1024) in
      let c := v_alloc_committ posix_ok (world_of r) (info_of r) 33 in
      exists ai2 : AllocInfo,
        v_alloc_reset (Some (info_of c)) = Some ai2
        /\ result_of c = base (info_of r)
        /\ result_of (v_alloc_committ posix_ok (world_of c) ai2 40)
           = base (info_of r)
        /\ base (info_of r) <> NULL).
Proof.
  destruct (reset_reuse posix_ok) as [Hgeneral Hscenario].
  assert (H1 : 0 < 40) by lia.
  assert (H2 : ALIGN_UP 40 V_ALLOC_ALIGNMENT
               <= end_ sample_info - base sample_info)
    by (vm_compute; discriminate).
  split.
  - split; [exact sample_info_reserved | split; [exact H1 | split; [exact H2 |]]].
    exact (Hgeneral world0 sample_info 40 sample_info_reserved H1 H2).
  - intros r c.
    apply (Hscenario world0 (world_of r) (world_of c) (info_of r) (info_of c)
             (result_of c)).
    + reflexivity.
    + apply (triple_eta c).
    + vm_compute; discriminate.
Defined.

(* ================================================================== *)
(** ** Decommit *)

Lemma multiple_add (x y a : Z) :
  x mod a = 0 -> y mod a = 0 -> (x + y) mod a = 0.
Proof. intros Hx Hy. rewrite Zplus_mod, Hx, Hy. apply Zmod_0_l. Qed.

Lemma multiple_sub (x y a : Z) :
  x mod a = 0 -> y mod a = 0 -> (x - y) mod a = 0.
Proof. intros Hx Hy. rewrite Zminus_mod, Hx, Hy. apply Zmod_0_l. Qed.

Lemma rounded_extra_within_committed (ai : AllocInfo) (extra : Z) :
  reserved ai ->
  0 < extra ->
  extra + (page_size ai - 1) < size_t_modulus ->
  extra <= end_ ai - base ai ->
  ALIGN_UP extra (page_size ai) <= end_ ai - base ai.
Proof.
  intros Hres Hpos Hfit Hle.
  destruct Hres as [_ _ [Hpage _] (_ & _ & _ & Hmul)].
  apply ALIGN_UP_least; try assumption; lia.
Qed.

(** C9, amended to requests whose rounding up to the page size does not
    wrap ([extra + page_size - 1 < 2^64]).  On a reserved descriptor,
    [v_alloc_decommit] with [extra > 0] rounds [extra] up to the page size;
    it returns [false], changing nothing, when [extra] exceeds the committed
    size [end_ - base]; otherwise it calls the platform decommit for the
    rounded size at the address [end_ - rounded] aligned down to the page size
    (which is [end_ - rounded] itself when [base] is page-aligned), and when
    that call succeeds [end_] becomes this address and nothing else
    changes. *)
Theorem decommit_behaviour :
  forall (va : V_Allocator) (w : World) (ai : AllocInfo) (extra : Z),
    reserved ai ->
    0 < extra ->
    extra + (page_size ai - 1) < size_t_modulus ->
    let rounded := ALIGN_UP extra (page_size ai) in
    let target := ALIGN_DOWN_PTR (end_ ai - rounded) (page_size ai) in
    (extra <= rounded < extra + page_size ai
     /\ rounded mod page_size ai = 0)
    /\ (target mod page_size ai = 0
        /\ end_ ai - rounded - page_size ai < target <= end_ ai - rounded
        /\ (base ai mod page_size ai = 0 -> target = end_ ai - rounded))
    /\ (end_ ai - base ai < extra ->
        v_alloc_decommit va w (Some ai) extra = (false, Some ai, w))
    /\ (extra <= end_ ai - base ai ->
        v_alloc_decommit va w (Some ai) extra
        = (fst (decommit va w target rounded),
           Some (if fst (decommit va w target rounded)
                 then set_end target ai else ai),
           snd (decommit va w target rounded))).
Proof.
  intros va w ai extra Hres Hpos Hfit rounded target.
  pose proof (reserved_page_range ai Hres) as [Hpage _].
  destruct (ALIGN_UP_exact extra (page_size ai) ltac:(lia) Hpage Hfit)
    as [Hround Hmul].
  fold rounded in Hround, Hmul.
  pose proof (ALIGN_DOWN_bounds (end_ ai - rounded) (page_size ai) Hpage)
    as Htarget.
  fold (ALIGN_DOWN_PTR (end_ ai - rounded) (page_size ai)) in Htarget.
  fold target in Htarget.
  split; [split; assumption | split; [split; [| split] | split]].
  - apply ALIGN_DOWN_multiple.
  - lia.
  - intros Hbase. apply ALIGN_DOWN_fixed; [exact Hpage |].
    destruct Hres as [_ _ _ (_ & _ & _ & Hcommitted)].
    replace (end_ ai - rounded)
      with ((end_ ai - base ai) + base ai - rounded) by lia.
    apply multiple_sub; [apply multiple_add |]; assumption.
  - intros Hover. unfold v_alloc_decommit.
    rewrite (eqb_false extra 0) by lia.
    fold rounded. rewrite (committed_size_cast ai Hres).
    rewrite gtb_true by lia. reflexivity.
  - intros Hle. unfold v_alloc_decommit.
    rewrite (eqb_false extra 0) by lia.
    fold rounded. rewrite (committed_size_cast ai Hres).
    rewrite gtb_false
      by (apply rounded_extra_within_committed; assumption).
    fold target.
    destruct (decommit va w target rounded) as [[|] w']; reflexivity.
Qed.

Lemma decommit_behaviour_witness :
  reserved sample_info
  /\ 0 < 100
  /\ 100 + (page_size sample_info - 1) < size_t_modulus
  /\ v_alloc_decommit posix_ok world0 (Some sample_info) 100
     = (true, Some (set_end (base sample_info) sample_info),
        mkWorld [Mprotect 16777216 4096 PROT_NONE;
                 Madvise_DONTNEED 16777216 4096] 0).
Proof.
  assert (H1 : 0 < 100) by lia.
  assert (H2 : 100 + (page_size sample_info - 1) < size_t_modulus)
    by reflexivity.
  split; [exact sample_info_reserved | split; [exact H1 | split; [exact H2 |]]].
  destruct (decommit_behaviour posix_ok world0 sample_info 100
              sample_info_reserved H1 H2) as (_ & _ & _ & Hcall).
  rewrite Hcall by (simpl; lia).
  reflexivity.
Defined.

(** C9 as stated, for every [extra > 0], fails at [extra = 2^64 - 1]: the
    request exceeds the 4096 committed bytes of the sample arena, but its
    rounding wraps to 0 and the call returns [true]. *)
Lemma decommit_accepts_wrapping_request :
  reserved sample_info
  /\ 0 < size_t_modulus - 1
  /\ is_size_t (size_t_modulus - 1)
  /\ end_ sample_info - base sample_info < size_t_modulus - 1
  /\ result_of (v_alloc_decommit posix_ok world0 (Some sample_info)
                  (size_t_modulus - 1))
     = true.
Proof.
  split; [exact sample_info_reserved |].
  unfold is_size_t. repeat split; try reflexivity; discriminate.
Qed.

(* ================================================================== *)
(** ** Bump allocation *)

Lemma reserved_bumpable (ai : AllocInfo) :
  reserved ai ->
  0 <= base ai ->
  ptr ai mod V_ALLOC_ALIGNMENT = 0 ->
  bumpable ai.
Proof.
  intros [Hb Hs Hp (H1 & H2 & H3 & _)] Hnn Hal.
  unfold is_size_t in Hs. unfold NULL in Hb.
  constructor; try assumption; lia.
Qed.

Lemma request_fits_same (ai ai' : AllocInfo) (n : Z) :
  base ai' = base ai ->
  page_size ai' = page_size ai ->
  reserved_size ai' = reserved_size ai ->
  request_fits ai n -> request_fits ai' n.
Proof. unfold request_fits. intros -> -> ->. exact (fun H => H). Qed.

(** One successful [v_alloc_committ]: what it returns and what it leaves. *)
Lemma committ_step (va : V_Allocator) (w w' : World) (ai ai' : AllocInfo)
    (n p : Z) :
  bumpable ai ->
  request_fits ai n ->
  v_alloc_committ va w ai n = (p, ai', w') ->
  p <> NULL ->
  p = ptr ai
  /\ ptr ai' = ptr ai + ALIGN_UP n V_ALLOC_ALIGNMENT
  /\ 0 < ALIGN_UP n V_ALLOC_ALIGNMENT
  /\ n <> 0
  /\ base ai' = base ai
  /\ page_size ai' = page_size ai
  /\ reserved_size ai' = reserved_size ai
  /\ end_ ai <= end_ ai'
  /\ bumpable ai'.
Proof.
  intros Hbump [(Hn0 & Hfit16 & Hfitpage) Hroom] Hcall Hp.
  destruct Hbump as [Hb [Hpage Hpagemax] Hs0 [Hbp Hpe] Hh Hspan Hal].
  destruct (Z.eq_dec n 0) as [-> | Hn].
  { rewrite committ_zero in Hcall.
    injection Hcall as <- _ _. contradiction. }
  destruct (ALIGN_UP_exact n V_ALLOC_ALIGNMENT Hn0 ltac:(reflexivity) Hfit16)
    as [Ha Hamul].
  set (a := ALIGN_UP n V_ALLOC_ALIGNMENT) in *.
  assert (Hapos : 0 < a) by lia.
  destruct (ALIGN_UP_exact a (page_size ai) ltac:(lia) Hpage Hfitpage)
    as [Hadj Hadjmul].
  set (adj := ALIGN_UP a (page_size ai)) in *.
  assert (Hcast : to_size_t (end_ ai - ptr ai) = end_ ai - ptr ai)
    by (apply to_size_t_small; unfold is_size_t; lia).
  destruct (Z_le_gt_dec a (end_ ai - ptr ai)) as [Hfits | Hgrow].
  - rewrite committ_fits in Hcall by (fold a; rewrite ?Hcast; assumption).
    fold a in Hcall.
    rewrite (wrap_ptr_small (ptr ai + a)) in Hcall by lia.
    injection Hcall as <- <- _. simpl_info.
    repeat (split; [first [reflexivity | assumption | lia] |]).
    constructor; simpl_info; try assumption; try lia.
    apply multiple_add; assumption.
  - rewrite committ_growth in Hcall
      by (fold a; rewrite ?Hcast; try assumption; unfold NULL; lia).
    fold a in Hcall. fold adj in Hcall.
    rewrite (wrap_ptr_small (ptr ai + adj)) in Hcall by lia.
    rewrite (wrap_ptr_small (base ai + reserved_size ai)) in Hcall by lia.
    destruct (Z_le_gt_dec (ptr ai + adj) (base ai + reserved_size ai))
      as [Hin | Hout].
    + rewrite (gtb_false _ _ Hin) in Hcall.
      rewrite (to_size_t_small (end_ ai - base ai + adj)) in Hcall
        by (unfold is_size_t; lia).
      rewrite (wrap_ptr_small (ptr ai + a)) in Hcall by lia.
      rewrite (wrap_ptr_small (base ai + (end_ ai - base ai + adj))) in Hcall
        by lia.
      injection Hcall as <- <- _. simpl_info.
      repeat (split; [first [reflexivity | assumption | lia] |]).
      constructor; simpl_info; try assumption; try lia.
      apply multiple_add; assumption.
    + rewrite (gtb_true _ _) in Hcall by lia.
      injection Hcall as <- _ _. contradiction.
Qed.

Lemma committ_chain_ranges (va : V_Allocator) (sizes : list Z) :
  forall (w w' : World) (ai ai' : AllocInfo) (ranges : list (Z * Z)),
    bumpable ai ->
    Forall (request_fits ai) sizes ->
    committ_chain va w ai sizes = (ranges, ai', w') ->
    Forall (fun r => fst r <> NULL) ranges ->
    bumpable ai'
    /\ base ai' = base ai
    /\ ptr ai <= ptr ai'
    /\ Forall (fun r => ptr ai <= fst r
                        /\ fst r + snd r <= ptr ai'
                        /\ fst r mod V_ALLOC_ALIGNMENT = 0) ranges
    /\ StronglySorted range_before ranges.
Proof.
  induction sizes as [|n rest IH];
    intros w w' ai ai' ranges Hbump Hsizes Hchain Hok; simpl in Hchain.
  - injection Hchain as <- <- _.
    split; [assumption | split; [reflexivity | split; [lia | split]]];
      constructor.
  - destruct (v_alloc_committ va w ai n) as [[p ai1] w1] eqn:Hcall.
    destruct (committ_chain va w1 ai1 rest) as [[ranges1 ai2] w2] eqn:Hrest.
    injection Hchain as <- <- _.
    inversion Hsizes as [|? ? Hn Hsizes']; subst.
    inversion Hok as [|? ? Hp Hok']; subst. simpl in Hp.
    destruct (committ_step va w w1 ai ai1 n p Hbump Hn Hcall Hp)
      as (-> & Hptr & Hapos & _ & Hbase & Hpage & Hrsv & Hend & Hbump1).
    assert (Hsizes1 : Forall (request_fits ai1) rest).
    { eapply Forall_impl; [| exact Hsizes'].
      intros m. apply request_fits_same; assumption. }
    destruct (IH w1 w2 ai1 ai2 ranges1 Hbump1 Hsizes1 Hrest Hok')
      as (Hbump2 & Hbase2 & Hle & Hin & Hsorted).
    pose proof (bumpable_aligned ai Hbump) as Hal.
    split; [exact Hbump2 | split; [congruence | split; [lia | split]]].
    + constructor; simpl; [repeat split; try assumption; lia |].
      eapply Forall_impl; [| exact Hin].
      simpl. intros r (H1 & H2 & H3). repeat split; try assumption; lia.
    + constructor; [exact Hsorted |].
      eapply Forall_impl; [| exact Hin].
      unfold range_before. simpl. intros r (H1 & _). lia.
Qed.

(** C7, amended: the arena is reserved at a non-negative [base] with a
    16-aligned cursor, and for every request no number the call computes
    wraps: neither its rounding up to 16 bytes and then to the page size, nor
    an address ([base] plus twice [reserved_size] plus the page-rounded
    request stays below 2^64).  Then, for every sequence of [v_alloc_committ]
    calls that all succeed, with no reset in between, each returned range
    starts strictly after the start and at or after the end of every earlier
    one, starts on a multiple of 16, and lies within [base, end_) of the
    descriptor after the last call. *)
Theorem bump_monotonicity :
  forall (va : V_Allocator) (sizes : list Z) (w w' : World)
         (ai ai' : AllocInfo) (ranges : list (Z * Z)),
    reserved ai ->
    0 <= base ai ->
    ptr ai mod V_ALLOC_ALIGNMENT = 0 ->
    Forall (request_fits ai) sizes ->
    committ_chain va w ai sizes = (ranges, ai', w') ->
    Forall (fun r => fst r <> NULL) ranges ->
    StronglySorted range_before ranges
    /\ Forall (fun r => fst r mod V_ALLOC_ALIGNMENT = 0
                        /\ base ai' <= fst r
                        /\ fst r + snd r <= end_ ai') ranges.
Proof.
  intros va sizes w w' ai ai' ranges Hres Hnn Hal Hsizes Hchain Hok.
  pose proof (reserved_bumpable ai Hres Hnn Hal) as Hbump.
  destruct (committ_chain_ranges va sizes w w' ai ai' ranges
              Hbump Hsizes Hchain Hok)
    as (Hbump' & Hbase & Hle & Hin & Hsorted).
  split; [exact Hsorted |].
  destruct Hbump as [_ _ _ [Hbp _] _ _ _].
  destruct Hbump' as [_ _ _ [_ Hpe'] _ _ _].
  eapply Forall_impl; [| exact Hin].
  simpl. intros r (H1 & H2 & H3). repeat split; try assumption; lia.
Qed.

Lemma fresh_info_reserved (reserve_size : Z) :
  is_size_t reserve_size -> reserved (fresh_info reserve_size).
Proof.
  intros Hs. pose proof Hs as [Hs0 _].
  constructor; unfold invariant, fresh_info; simpl_info.
  - discriminate.
  - exact Hs.
  - split; reflexivity.
  - rewrite Z.sub_diag. repeat split; try lia; reflexivity.
Qed.

Lemma bump_monotonicity_witness :
  let r := committ_chain posix_ok world0 (fresh_info (1024 * 1024))
             [33; 40; 5000] in
  result_of r
  = [(16777216, 48); (16777216 + 48, 48); (16777216 + 96, 5008)]
  /\ StronglySorted range_before (result_of r)
  /\ Forall (fun x => fst x mod V_ALLOC_ALIGNMENT = 0
                      /\ base (info_of r) <= fst x
                      /\ fst x + snd x <= end_ (info_of r)) (result_of r).
Proof.
  intros r. split; [reflexivity |].
  apply (bump_monotonicity posix_ok [33; 40; 5000] world0 (world_of r)
           (fresh_info (1024 * 1024)) (info_of r) (result_of r)).
  - apply fresh_info_reserved. split; [discriminate | reflexivity].
  - discriminate.
  - reflexivity.
  - repeat constructor; discriminate.
  - apply (triple_eta r).
  - vm_compute. repeat constructor; discriminate.
Defined.

(** C7 as stated, for every sequence of successful calls, fails on the
    requests [2^64 - 1] then 16 in a fresh two-page arena: aligning the first
    request to 16 wraps to 0, the call succeeds without moving the cursor,
    and the second call returns the same address. *)
Lemma bump_repeats_address_for_wrapping_request :
  reserved (fresh_info 8192)
  /\ is_size_t (size_t_modulus - 1)
  /\ exists (r1 r2 : Z * Z) (ai' : AllocInfo) (w' : World),
      committ_chain posix_ok world0 (fresh_info 8192)
        [size_t_modulus - 1; 16]
      = ([r1; r2], ai', w')
      /\ fst r1 <> NULL /\ fst r2 <> NULL
      /\ ~ fst r1 < fst r2.
Proof.
  split; [apply fresh_info_reserved; split; [discriminate | reflexivity] |].
  split; [split; [discriminate | reflexivity] |].
  eexists _, _, _, _. split; [vm_compute; reflexivity |].
  simpl. repeat split; discriminate.
Qed.

(* ================================================================== *)
(** ** The descriptor invariant *)

Lemma ALIGN_DOWN_nonneg (x a : Z) : 0 <= x -> 0 <= ALIGN_DOWN x a.
Proof.
  intros Hx. unfold ALIGN_DOWN.
  destruct (Z.lt_trichotomy a 0) as [Hneg | [-> | Hpos]].
  - pose proof (Z.div_mod x a ltac:(lia)) as Hdm.
    pose proof (Z.mod_neg_bound x a Hneg) as Hb. lia.
  - lia.
  - pose proof (Z.div_mod x a ltac:(lia)) as Hdm.
    pose proof (Z.mod_pos_bound x a Hpos) as Hb.
    apply Z.mul_nonneg_nonneg; [apply Z.div_pos |]; lia.
Qed.

Lemma ALIGN_UP_nonneg (n a : Z) : 0 <= ALIGN_UP n a.
Proof.
  unfold ALIGN_UP. apply ALIGN_DOWN_nonneg.
  apply (to_size_t_range (n + (a - 1))).
Qed.

Lemma ALIGN_UP_multiple (n a : Z) : ALIGN_UP n a mod a = 0.
Proof. unfold ALIGN_UP. apply ALIGN_DOWN_multiple. Qed.












(* ================================================================== *)
(** ** The capacity boundary *)

(** [v_alloc_resize] compares the new committed end with the end of the
    reservation: a resize that would pass it, without wrapping the address
    space, returns [NULL] and changes nothing. *)
Lemma resize_respects_capacity (va : V_Allocator) (w : World)
    (ai : AllocInfo) (n : Z) :
  reserved ai ->
  end_ ai - base ai < n ->
  0 <= base ai ->
  base ai + ALIGN_UP n (page_size ai) < size_t_modulus ->
  reserved_size ai < ALIGN_UP n (page_size ai) ->
  v_alloc_resize va w ai n = (NULL, ai, w).
Proof.
  intros Hres Hgrow Hnn Htop Hover.
  pose proof (reserved_invariant ai Hres) as (H1 & H2 & H3 & _).
  pose proof (reserved_size_range ai Hres) as [Hs0 _].
  unfold v_alloc_resize, reserve_default.
  rewrite (eqb_false n 0) by lia.
  rewrite (committed_size_cast ai Hres), (gtb_true _ _ Hgrow).
  rewrite (eqb_false (base ai) 0 (reserved_base ai Hres)). simpl.
  rewrite (wrap_ptr_small (ALIGN_UP n (page_size ai) + base ai)) by lia.
  pose proof (wrap_ptr_le (base ai + reserved_size ai) ltac:(lia)) as Hle.
  rewrite gtb_true by lia. reflexivity.
Qed.

(** [v_alloc_committ] compares the cursor plus the growth with the end of
    the reservation, and then adds the growth to the committed end: whenever
    the cursor is below the committed end by more than the reservation has
    left, the call commits past the reservation. *)
Lemma committ_checks_cursor_not_end (va : V_Allocator) (w : World)
    (ai : AllocInfo) (n : Z) :
  reserved ai ->
  0 <= base ai ->
  n <> 0 ->
  let aligned := ALIGN_UP n V_ALLOC_ALIGNMENT in
  let adjusted := ALIGN_UP aligned (page_size ai) in
  end_ ai - ptr ai < aligned ->
  ptr ai + adjusted <= base ai + reserved_size ai ->
  base ai + reserved_size ai < end_ ai + adjusted ->
  end_ ai + adjusted < size_t_modulus ->
  result_of (v_alloc_committ va w ai n) = ptr ai
  /\ end_ (info_of (v_alloc_committ va w ai n)) = end_ ai + adjusted
  /\ base ai + reserved_size ai < end_ (info_of (v_alloc_committ va w ai n)).
Proof.
  intros Hres Hnn Hn aligned adjusted Hgrow Hin Hover Htop.
  pose proof (reserved_invariant ai Hres) as (H1 & H2 & H3 & _).
  pose proof (reserved_size_range ai Hres) as Hs.
  assert (Hadj : 0 <= adjusted) by apply ALIGN_UP_nonneg.
  rewrite committ_growth;
    try assumption; try exact (reserved_base ai Hres);
    [| rewrite (headroom_cast ai Hres); exact Hgrow].
  fold aligned. fold adjusted.
  unfold is_size_t in Hs.
  rewrite (wrap_ptr_small (ptr ai + adjusted)) by lia.
  rewrite (wrap_ptr_small (base ai + reserved_size ai)) by lia.
  rewrite gtb_false by lia.
  rewrite (to_size_t_small (end_ ai - base ai + adjusted))
    by (unfold is_size_t; lia).
  rewrite (wrap_ptr_small (base ai + (end_ ai - base ai + adjusted))) by lia.
  unfold result_of, info_of. simpl.
  repeat split; lia.
Qed.

(** C2 (the code departs from it).  On the two-page arena left by reserve
    8192, allocate 4096, reset, the descriptor is reserved, the request of
    8192 bytes needs a page-aligned growth of 8192 bytes that would put the
    committed end at [base + 12288], past [base + reserved_size = base +
    8192]; yet [v_alloc_committ] returns the non-null [base], asks the
    platform to commit 8192 bytes from [base + 4096] and records
    [end_ = base + 12288].  The same happens without a reset: in a fresh
    arena of four pages the successful requests 16, 4112, 8176 leave
    [end_ = base + 20480]. *)
Theorem committ_commits_past_reservation :
  (let r1 := v_alloc_reserve posix_ok world0 zero_info 8192 in
   let r2 := v_alloc_committ posix_ok (world_of r1) (info_of r1) 4096 in
   result_of r1 = true
   /\ result_of r2 = base (info_of r1)
   /\ v_alloc_reset (Some (info_of r2)) = Some half_committed_info)
  /\ reserved half_committed_info
  /\ base half_committed_info + reserved_size half_committed_info
     < end_ half_committed_info
       + ALIGN_UP (ALIGN_UP 8192 V_ALLOC_ALIGNMENT)
           (page_size half_committed_info)
  /\ (let r := v_alloc_committ posix_ok world0 half_committed_info 8192 in
      result_of r = base half_committed_info
      /\ result_of r <> NULL
      /\ end_ (info_of r) = base half_committed_info + 12288
      /\ base (info_of r) + reserved_size (info_of r) < end_ (info_of r)
      /\ history (world_of r)
         = [Mprotect (base half_committed_info + 4096) 8192 PROT_READ_WRITE])
  /\ (let r := committ_chain posix_ok world0 (fresh_info 16384)
                 [16; 4112; 8176] in
      result_of r
      = [(16777216, 16); (16777216 + 16, 4112); (16777216 + 4128, 8176)]
      /\ end_ (info_of r) = base (info_of r) + 20480
      /\ reserved_size (info_of r) = 16384).
Proof.
  split; [| split; [| split; [| split]]].
  5:{ repeat split; reflexivity. }
  - repeat split; reflexivity.
  - constructor; unfold invariant; simpl_info.
    + discriminate.
    + split; [discriminate | reflexivity].
    + split; reflexivity.
    + repeat split; vm_compute; try reflexivity; discriminate.
  - reflexivity.
  - repeat split; try reflexivity. discriminate.
Qed.

(* ================================================================== *)
(** ** A commit that the platform refuses *)

(** C3 (the code departs from it).  Over a kernel that refuses every commit
    ([mprotect] answers -1, a committing [VirtualAlloc] answers [NULL]), on a
    freshly reserved arena of 1 MiB, [v_alloc_committ] of 33 bytes and
    [v_alloc_resize] to 33 bytes both make the refused platform call and
    still return the non-null [base], with [end_] moved one page up and the
    cursor moved: the test [result == -1] on the [bool] that [v_alloc.commit]
    returns never holds. *)
Theorem commit_failure_goes_unnoticed :
  forall t : Target,
    let va := v_alloc kernel_commit_fails t in
    let r := v_alloc_reserve va world0 zero_info (1024 * 1024) in
    let ai := info_of r in
    let c := v_alloc_committ va (world_of r) ai 33 in
    let z := v_alloc_resize va (world_of r) ai 33 in
    (result_of r = true
     /\ ptr ai = base ai /\ end_ ai = base ai /\ base ai <> NULL)
    /\ (fst (commit va (world_of r) (base ai) 4096 4096)
        = match t with POSIX => true | WIN32 => false end
        /\ kernel_commit_fails (history (world_of r))
             (commit_call t (base ai) 4096 4096)
           = match t with POSIX => -1 | WIN32 => NULL end)
    /\ (history (world_of c)
        = commit_call t (base ai) 4096 4096 :: history (world_of r)
        /\ result_of c = base ai
        /\ end_ (info_of c) = end_ ai + 4096
        /\ ptr (info_of c) = ptr ai + 48)
    /\ (history (world_of z)
        = commit_call t (base ai) 4096 4096 :: history (world_of r)
        /\ result_of z = base ai
        /\ end_ (info_of z) = end_ ai + 4096
        /\ ptr (info_of z) = end_ ai + 4096).
Proof.
  intros [|]; cbv zeta; repeat split; try reflexivity; discriminate.
Qed.

(* ================================================================== *)
(** ** Reservation through the providers *)

Lemma reserve_world (K : Kernel) (t : Target) (w : World) (n : Z) :
  let w1 := snd (reserve (v_alloc K t) w n) in
  (v_alloc_page_size w <> 0 ->
   history w1 = reserve_call t n :: history w
   /\ v_alloc_page_size w1 = v_alloc_page_size w)
  /\ (v_alloc_page_size w = 0 ->
      history w1 = reserve_call t n :: page_query t :: history w
      /\ v_alloc_page_size w1
         = queried_page_size t (K (history w) (page_query t))).
Proof.
  destruct t; simpl;
    unfold v_alloc_posix_reserve, v_alloc_win_reserve,
           v_alloc_posix_get_page_size, v_alloc_win_get_page_size, syscall;
    simpl; split; intros Hp.
  - rewrite (eqb_false _ _ Hp). simpl. split; reflexivity.
  - rewrite Hp. simpl. destruct (to_s32 _ <=? 0); simpl; split; reflexivity.
  - rewrite (eqb_false _ _ Hp). simpl. split; reflexivity.
  - rewrite Hp. simpl. split; reflexivity.
Qed.

Lemma reserve_world_of (va : V_Allocator) (w : World) (ai : AllocInfo)
    (n : Z) :
  world_of (v_alloc_reserve va w ai n) = snd (reserve va w n).
Proof.
  unfold v_alloc_reserve. destruct (reserve va w n) as [p w1].
  simpl. destruct (p =? NULL); reflexivity.
Qed.

(** X1. The page size is queried at most once per process: when the cached
    page size is non-zero, [v_alloc_reserve] makes the reservation call only
    and leaves the cache alone; when it is zero the query comes first and its
    answer is cached (on POSIX as 0 again when the answer is not positive).
    So a reservation that follows one with a non-zero cached page size adds
    exactly one call. *)
Theorem page_size_queried_once :
  forall (K : Kernel) (t : Target) (w : World) (ai : AllocInfo) (n : Z),
    let w1 := world_of (v_alloc_reserve (v_alloc K t) w ai n) in
    (v_alloc_page_size w <> 0 ->
     history w1 = reserve_call t n :: history w
     /\ v_alloc_page_size w1 = v_alloc_page_size w)
    /\ (v_alloc_page_size w = 0 ->
        history w1 = reserve_call t n :: page_query t :: history w
        /\ v_alloc_page_size w1
           = queried_page_size t (K (history w) (page_query t)))
    /\ (v_alloc_page_size w1 <> 0 ->
        forall (ai2 : AllocInfo) (n2 : Z),
          let w2 := world_of (v_alloc_reserve (v_alloc K t) w1 ai2 n2) in
          history w2 = reserve_call t n2 :: history w1
          /\ v_alloc_page_size w2 = v_alloc_page_size w1).
Proof.
  intros K t w ai n w1. unfold w1. rewrite reserve_world_of.
  destruct (reserve_world K t w n) as [Hcached Hquery].
  split; [exact Hcached | split; [exact Hquery |]].
  intros Hp ai2 n2. cbv zeta. rewrite reserve_world_of.
  exact (proj1 (reserve_world K t _ n2) Hp).
Qed.

Lemma page_size_queried_once_witness :
  (v_alloc_page_size world_paged <> 0
   /\ history (world_of (v_alloc_reserve posix_ok world_paged zero_info 8192))
      = [Mmap 8192])
  /\ (v_alloc_page_size world0 = 0
      /\ history (world_of (v_alloc_reserve win_ok world0 zero_info 8192))
         = [VirtualAlloc NULL 8192 MEM_RESERVE PAGE_NOACCESS;
            GetSystemInfo_dwPageSize])
  /\ history
       (world_of
          (v_alloc_reserve posix_ok
             (world_of (v_alloc_reserve posix_ok world0 zero_info 8192))
             zero_info 4096))
     = [Mmap 4096; Mmap 8192; Sysconf_PAGESIZE].
Proof.
  assert (H1 : v_alloc_page_size world_paged <> 0) by discriminate.
  assert (H0 : v_alloc_page_size world0 = 0) by reflexivity.
  split; [split; [exact H1 |] | split; [split; [exact H0 |] |]].
  - exact (proj1 (proj1 (page_size_queried_once kernel_ok POSIX world_paged
                           zero_info 8192) H1)).
  - exact (proj1 (proj1 (proj2 (page_size_queried_once kernel_ok WIN32 world0
                                  zero_info 8192)) H0)).
  - refine (proj1 (proj2 (proj2 (page_size_queried_once kernel_ok POSIX world0
                                   zero_info 8192)) _ zero_info 4096)).
    discriminate.
Defined.

Lemma v_alloc_reserve_answer (K : Kernel) (t : Target) (w : World)
    (ai : AllocInfo) (n : Z) :
  let r := v_alloc_reserve (v_alloc K t) w ai n in
  exists h : list SysCall,
    history (world_of r) = reserve_call t n :: h
    /\ (result_of r = false <-> reserve_refused t (K h (reserve_call t n)))
    /\ (result_of r = false -> info_of r = set_base NULL ai)
    /\ (result_of r = true ->
        info_of r
        = mkAllocInfo (K h (reserve_call t n)) (K h (reserve_call t n))
            (K h (reserve_call t n)) n (v_alloc_page_size (world_of r))).
Proof.
  unfold reserve_refused.
  destruct t; simpl;
    unfold v_alloc_reserve; simpl;
    unfold v_alloc_posix_reserve, v_alloc_win_reserve, syscall; simpl.
  - match goal with
    | |- context [Mmap n :: history ?w'] => set (w1 := w')
    end.
    exists (history w1).
    set (a := K (history w1) (Mmap n)).
    destruct (a =? MAP_FAILED) eqn:Hmf; simpl.
    + apply Z.eqb_eq in Hmf.
      unfold result_of, info_of, world_of; simpl.
      repeat split; try reflexivity; try discriminate.
      intros _. right. split; [reflexivity | exact Hmf].
    + apply Z.eqb_neq in Hmf.
      destruct (a =? NULL) eqn:Hn; unfold result_of, info_of, world_of; simpl.
      * apply Z.eqb_eq in Hn.
        repeat split; try reflexivity; try discriminate.
        -- intros _. left. exact Hn.
        -- rewrite Hn. reflexivity.
      * apply Z.eqb_neq in Hn.
        repeat split; try reflexivity; try discriminate.
        intros [H | [_ H]]; contradiction.
  - match goal with
    | |- context [VirtualAlloc NULL n MEM_RESERVE PAGE_NOACCESS
                    :: history ?w'] => set (w1 := w')
    end.
    exists (history w1).
    set (a := K (history w1) (VirtualAlloc NULL n MEM_RESERVE PAGE_NOACCESS)).
    destruct (a =? NULL) eqn:Hn; unfold result_of, info_of, world_of; simpl.
    + apply Z.eqb_eq in Hn.
      repeat split; try reflexivity; try discriminate.
      * intros _. left. exact Hn.
      * rewrite Hn. reflexivity.
    + apply Z.eqb_neq in Hn.
      repeat split; try reflexivity; try discriminate.
      intros [H | [H _]]; [contradiction | discriminate].
Qed.

(** X2. [v_alloc_reserve] makes the provider's reservation call last and
    reports failure exactly when the answer to it is [NULL] or, on POSIX,
    [MAP_FAILED]; then only [base] is overwritten, with [NULL].  Otherwise the
    descriptor starts empty at the answered address: [ptr = end_ = base],
    [reserved_size] the requested size and [page_size] the cached page
    size. *)
Theorem reserve_reports_refusal :
  forall (K : Kernel) (t : Target) (w : World) (ai : AllocInfo) (n : Z),
    let r := v_alloc_reserve (v_alloc K t) w ai n in
    exists h : list SysCall,
      history (world_of r) = reserve_call t n :: h
      /\ (result_of r = false <-> reserve_refused t (K h (reserve_call t n)))
      /\ (result_of r = false -> info_of r = set_base NULL ai)
      /\ (result_of r = true ->
          info_of r
          = mkAllocInfo (K h (reserve_call t n)) (K h (reserve_call t n))
              (K h (reserve_call t n)) n (v_alloc_page_size (world_of r))).
Proof. intros K t w ai n. apply v_alloc_reserve_answer. Qed.

Lemma reserve_reports_refusal_witness :
  info_of (v_alloc_reserve posix_ok world0 zero_info 8192)
  = mkAllocInfo 16777216 16777216 16777216 8192 4096.
Proof.
  destruct (reserve_reports_refusal kernel_ok POSIX world0 zero_info 8192)
    as (h & Hh & _ & _ & Hok).
  injection Hh as <-.
  exact (Hok eq_refl).
Defined.

(* ================================================================== *)
(** ** What the providers record *)

Lemma commit_world_posix (K : Kernel) (w : World)
    (addr total_size additional_bytes : Z) :
  snd (commit (v_alloc K POSIX) w addr total_size additional_bytes)
  = mkWorld
      (Mprotect (wrap_ptr (addr + total_size - additional_bytes))
         additional_bytes PROT_READ_WRITE
         :: history w)
      (v_alloc_page_size w).
Proof. reflexivity. Qed.

Lemma commit_world_win (K : Kernel) (w : World)
    (addr total_size additional_bytes : Z) :
  snd (commit (v_alloc K WIN32) w addr total_size additional_bytes)
  = mkWorld
      (VirtualAlloc addr total_size MEM_COMMIT PAGE_READWRITE :: history w)
      (v_alloc_page_size w).
Proof. reflexivity. Qed.

(** When the tail to commit starts at [tail], inside the address space. *)
Lemma commit_world_tail (K : Kernel) (t : Target) (w : World)
    (addr tail total_size additional_bytes : Z) :
  wrap_ptr (addr + total_size - additional_bytes) = tail ->
  snd (commit (v_alloc K t) w addr total_size additional_bytes)
  = mkWorld
      (tail_commit_call t addr tail total_size additional_bytes :: history w)
      (v_alloc_page_size w).
Proof.
  intros <-. destruct t;
    [apply commit_world_posix | apply commit_world_win].
Qed.

(** Every commit is one call of the shape [commit_call]. *)
Lemma commit_world_call (K : Kernel) (t : Target) (w : World)
    (addr total_size additional_bytes : Z) :
  exists size additional : Z,
    history (snd (commit (v_alloc K t) w addr total_size additional_bytes))
    = commit_call t addr size additional :: history w.
Proof.
  destruct t.
  - exists (wrap_ptr (addr + total_size - additional_bytes) - addr
            + additional_bytes), additional_bytes.
    rewrite commit_world_posix. unfold commit_call. simpl.
    repeat f_equal. lia.
  - exists total_size, additional_bytes.
    rewrite commit_world_win. reflexivity.
Qed.

Lemma release_world (K : Kernel) (t : Target) (w : World) (ai : AllocInfo) :
  snd (release (v_alloc K t) w (base ai) (reserved_size ai))
  = mkWorld (release_call t ai :: history w) (v_alloc_page_size w).
Proof. destruct t; reflexivity. Qed.

(* ================================================================== *)
(** ** Requests beyond the reservation, and growth within it *)

Lemma resize_growth_cases (va : V_Allocator) (w : World) (ai : AllocInfo)
    (n : Z) :
  n <> 0 ->
  to_size_t (end_ ai - base ai) < n ->
  base ai <> NULL ->
  v_alloc_resize va w ai n
  = if wrap_ptr (ALIGN_UP n (page_size ai) + base ai)
       >? wrap_ptr (base ai + reserved_size ai)
    then (NULL, ai, w)
    else
      (base ai,
       set_ptr (wrap_ptr (base ai + ALIGN_UP n (page_size ai)))
         (set_end (wrap_ptr (base ai + ALIGN_UP n (page_size ai))) ai),
       snd (commit va w (base ai) (ALIGN_UP n (page_size ai))
              (to_size_t (ALIGN_UP n (page_size ai)
                          - (end_ ai - base ai))))).
Proof.
  intros Hn Hgrow Hb. unfold v_alloc_resize, reserve_default.
  rewrite (eqb_false n 0 Hn).
  rewrite (gtb_true _ _ Hgrow).
  rewrite (eqb_false (base ai) 0 Hb). simpl.
  destruct (wrap_ptr _ >? wrap_ptr _); [reflexivity |].
  destruct (commit va w (base ai) _ _) as [r w'].
  rewrite commit_result_not_minus_one. reflexivity.
Qed.

Lemma committ_refused (va : V_Allocator) (w : World) (ai : AllocInfo)
    (n : Z) :
  reserved ai ->
  0 < n ->
  0 <= base ai ->
  base ai + reserved_size ai < size_t_modulus ->
  end_ ai - ptr ai < ALIGN_UP n V_ALLOC_ALIGNMENT ->
  ptr ai + ALIGN_UP (ALIGN_UP n V_ALLOC_ALIGNMENT) (page_size ai)
  < size_t_modulus ->
  base ai + reserved_size ai
  < ptr ai + ALIGN_UP (ALIGN_UP n V_ALLOC_ALIGNMENT) (page_size ai) ->
  v_alloc_committ va w ai n = (NULL, ai, w).
Proof.
  intros Hres Hn Hnn Htop Hgrow Hnowrap Hover.
  pose proof (reserved_invariant ai Hres) as (H1 & H2 & H3 & _).
  pose proof (reserved_size_range ai Hres) as [Hs0 _].
  rewrite committ_growth;
    [| lia
     | rewrite (headroom_cast ai Hres); exact Hgrow
     | exact (reserved_base ai Hres)].
  rewrite (wrap_ptr_small (ptr ai + _)) by lia.
  rewrite (wrap_ptr_small (base ai + reserved_size ai)) by lia.
  rewrite (gtb_true _ _ Hover). reflexivity.
Qed.

(** X3. A request that does not fit in the reservation is refused before
    anything happens, as long as the address the bound test computes does
    not wrap: on a descriptor reserved at a non-negative [base] with
    [base + reserved_size] below 2^64, [v_alloc_committ] returns [NULL] when
    the cursor plus the page-rounded request is below 2^64 and passes
    [base + reserved_size], and [v_alloc_resize] when [base] plus the
    page-rounded size is below 2^64 and the rounded size passes
    [reserved_size]; both return the descriptor and the world they were
    given, so no platform call is made. *)
Theorem out_of_reserved_space_refused :
  forall (va : V_Allocator) (w : World) (ai : AllocInfo) (n : Z),
    reserved ai ->
    0 < n ->
    0 <= base ai ->
    base ai + reserved_size ai < size_t_modulus ->
    (end_ ai - ptr ai < ALIGN_UP n V_ALLOC_ALIGNMENT ->
     ptr ai + ALIGN_UP (ALIGN_UP n V_ALLOC_ALIGNMENT) (page_size ai)
     < size_t_modulus ->
     base ai + reserved_size ai
     < ptr ai + ALIGN_UP (ALIGN_UP n V_ALLOC_ALIGNMENT) (page_size ai) ->
     v_alloc_committ va w ai n = (NULL, ai, w))
    /\ (end_ ai - base ai < n ->
        base ai + ALIGN_UP n (page_size ai) < size_t_modulus ->
        reserved_size ai < ALIGN_UP n (page_size ai) ->
        v_alloc_resize va w ai n = (NULL, ai, w)).
Proof.
  intros va w ai n Hres Hn Hnn Htop. split.
  - intros Hgrow Hnowrap Hover. apply committ_refused; assumption.
  - intros Hgrow Hnowrap Hover.
    apply resize_respects_capacity; assumption.
Qed.

Lemma out_of_reserved_space_refused_witness :
  v_alloc_committ posix_ok world0 sample_info 8192
  = (NULL, sample_info, world0)
  /\ v_alloc_resize posix_ok world0 sample_info 8193
     = (NULL, sample_info, world0).
Proof.
  destruct (out_of_reserved_space_refused posix_ok world0 sample_info 8192
              sample_info_reserved ltac:(reflexivity) ltac:(discriminate)
              ltac:(reflexivity)) as [Hc _].
  destruct (out_of_reserved_space_refused posix_ok world0 sample_info 8193
              sample_info_reserved ltac:(reflexivity) ltac:(discriminate)
              ltac:(reflexivity)) as [_ Hr].
  split.
  - apply Hc; reflexivity.
  - apply Hr; reflexivity.
Defined.

(** X4. When [v_alloc_committ] has to grow a reserved arena, its bound test
    passes and no address wraps (the cursor plus the 16-rounded request and
    [end_] plus the page-rounded request are below 2^64), it makes exactly
    one platform call, the commit of the page-rounded request on top of the
    committed size, which on POSIX is an [mprotect] to read/write of the
    range that starts at the old [end_]; it returns the old cursor, moves the
    cursor by the 16-rounded request and [end_] by the page-rounded one. *)
Theorem committ_growth_commits_tail :
  forall (K : Kernel) (t : Target) (w : World) (ai : AllocInfo) (n : Z),
    reserved ai ->
    0 <= base ai ->
    base ai + reserved_size ai < size_t_modulus ->
    n <> 0 ->
    let aligned := ALIGN_UP n V_ALLOC_ALIGNMENT in
    let adjusted := ALIGN_UP aligned (page_size ai) in
    end_ ai - ptr ai < aligned ->
    ptr ai + adjusted <= base ai + reserved_size ai ->
    ptr ai + aligned < size_t_modulus ->
    end_ ai + adjusted < size_t_modulus ->
    v_alloc_committ (v_alloc K t) w ai n
    = (ptr ai,
       set_ptr (ptr ai + aligned) (set_end (end_ ai + adjusted) ai),
       mkWorld
         (tail_commit_call t (base ai) (end_ ai)
            (end_ ai - base ai + adjusted) adjusted
            :: history w)
         (v_alloc_page_size w)).
Proof.
  intros K t w ai n Hres Hnn Htop Hn aligned adjusted Hgrow Hin Hcur Hend.
  pose proof (reserved_invariant ai Hres) as (H1 & H2 & H3 & _).
  pose proof (reserved_size_range ai Hres) as [Hs0 _].
  assert (Hadj : 0 <= adjusted) by apply ALIGN_UP_nonneg.
  assert (Hal : 0 <= aligned) by apply ALIGN_UP_nonneg.
  rewrite committ_growth;
    try assumption; try exact (reserved_base ai Hres);
    [| rewrite (headroom_cast ai Hres); exact Hgrow].
  fold aligned. fold adjusted.
  rewrite (wrap_ptr_small (ptr ai + adjusted)) by lia.
  rewrite (wrap_ptr_small (base ai + reserved_size ai)) by lia.
  rewrite gtb_false by lia.
  rewrite (to_size_t_small (end_ ai - base ai + adjusted))
    by (unfold is_size_t; lia).
  rewrite (wrap_ptr_small (ptr ai + aligned)) by lia.
  rewrite (wrap_ptr_small (base ai + (end_ ai - base ai + adjusted))) by lia.
  rewrite (commit_world_tail K t w (base ai) (end_ ai)).
  - replace (base ai + (end_ ai - base ai + adjusted))
      with (end_ ai + adjusted) by lia.
    reflexivity.
  - replace (base ai + (end_ ai - base ai + adjusted) - adjusted)
      with (end_ ai) by lia.
    apply wrap_ptr_small. lia.
Qed.

Lemma committ_growth_commits_tail_witness :
  v_alloc_committ posix_ok world0 sample_info 4080
  = (16777216 + 48,
     mkAllocInfo 16777216 (16777216 + 4128) (16777216 + 8192) 8192 4096,
     mkWorld [Mprotect (16777216 + 4096) 4096 PROT_READ_WRITE] 0).
Proof.
  exact (committ_growth_commits_tail kernel_ok POSIX world0 sample_info
           4080 sample_info_reserved ltac:(discriminate) ltac:(reflexivity)
           ltac:(discriminate) ltac:(reflexivity)
           ltac:(vm_compute; discriminate) ltac:(reflexivity)
           ltac:(reflexivity)).
Defined.

Lemma resize_commit_tail (b e rounded : Z) :
  0 <= e < size_t_modulus ->
  wrap_ptr (b + rounded - to_size_t (rounded - (e - b))) = e.
Proof.
  intros He. unfold wrap_ptr, to_size_t.
  pose proof (Z.div_mod (rounded - (e - b)) size_t_modulus
                ltac:(discriminate)) as Hdm.
  replace (b + rounded - (rounded - (e - b)) mod size_t_modulus)
    with (e + ((rounded - (e - b)) / size_t_modulus) * size_t_modulus)
    by lia.
  rewrite Z_mod_plus_full. apply Z.mod_small. exact He.
Qed.

(** X5. A [v_alloc_resize] of a descriptor reserved at a non-negative
    [base], with [base + reserved_size] below 2^64, to more than its
    committed size, with a page-rounded size within [reserved_size], returns
    [base] and sets [ptr = end_ = base + rounded size]; it makes exactly one
    platform call, the commit of the rounded size, which on POSIX is an
    [mprotect] to read/write that starts at the old [end_].  When the
    rounding does not wrap, the rounded size is the least multiple of the
    page size that holds the request and the [mprotect] covers the bytes
    from the old [end_] to the new one. *)
Theorem resize_growth :
  forall (K : Kernel) (t : Target) (w : World) (ai : AllocInfo) (n : Z),
    reserved ai ->
    0 <= base ai ->
    base ai + reserved_size ai < size_t_modulus ->
    end_ ai - base ai < n ->
    let rounded := ALIGN_UP n (page_size ai) in
    rounded <= reserved_size ai ->
    v_alloc_resize (v_alloc K t) w ai n
    = (base ai,
       mkAllocInfo (base ai) (base ai + rounded) (base ai + rounded)
         (reserved_size ai) (page_size ai),
       mkWorld
         (tail_commit_call t (base ai) (end_ ai) rounded
            (to_size_t (rounded - (end_ ai - base ai)))
            :: history w)
         (v_alloc_page_size w))
    /\ (n + (page_size ai - 1) < size_t_modulus ->
        n <= rounded < n + page_size ai
        /\ rounded mod page_size ai = 0
        /\ to_size_t (rounded - (end_ ai - base ai))
           = base ai + rounded - end_ ai).
Proof.
  intros K t w ai n Hres Hnn Htop Hgrow rounded Hin.
  pose proof (reserved_invariant ai Hres) as (H1 & H2 & H3 & _).
  pose proof (reserved_size_range ai Hres) as Hs.
  pose proof (reserved_page_range ai Hres) as [Hpage _].
  assert (Hr0 : 0 <= rounded) by apply ALIGN_UP_nonneg.
  unfold is_size_t in Hs.
  split.
  - rewrite resize_growth_cases;
      [| lia
       | rewrite (committed_size_cast ai Hres); exact Hgrow
       | exact (reserved_base ai Hres)].
    fold rounded.
    rewrite (wrap_ptr_small (rounded + base ai)) by lia.
    rewrite (wrap_ptr_small (base ai + reserved_size ai)) by lia.
    rewrite gtb_false by lia.
    rewrite (wrap_ptr_small (base ai + rounded)) by lia.
    rewrite (commit_world_tail K t w (base ai) (end_ ai));
      [reflexivity | apply resize_commit_tail; lia].
  - intros Hfit.
    destruct (ALIGN_UP_exact n (page_size ai) ltac:(lia) Hpage Hfit)
      as [Hb Hmul].
    fold rounded in Hb, Hmul.
    split; [exact Hb | split; [exact Hmul |]].
    rewrite to_size_t_small by (unfold is_size_t; lia). lia.
Qed.

Lemma resize_growth_witness :
  v_alloc_resize posix_ok world0 sample_info 5000
  = (16777216,
     mkAllocInfo 16777216 (16777216 + 8192) (16777216 + 8192) 8192 4096,
     mkWorld [Mprotect (16777216 + 4096) 4096 PROT_READ_WRITE] 0).
Proof.
  destruct (resize_growth kernel_ok POSIX world0 sample_info 5000
              sample_info_reserved ltac:(discriminate) ltac:(reflexivity)
              ltac:(reflexivity) ltac:(vm_compute; discriminate))
    as [Hcall _].
  exact Hcall.
Defined.

(* ================================================================== *)
(** ** What a resize guarantees and what it keeps *)

Lemma resize_capacity (va : V_Allocator) (w w' : World) (ai ai' : AllocInfo)
    (n p : Z) :
  v_alloc_resize va w ai n = (p, ai', w') ->
  p <> NULL ->
  base ai <= end_ ai ->
  0 <= n ->
  0 < page_size ai' ->
  n + (page_size ai' - 1) < size_t_modulus ->
  0 <= base ai' ->
  base ai' + ALIGN_UP n (page_size ai') < size_t_modulus ->
  n <= end_ ai' - base ai'.
Proof.
  unfold v_alloc_resize. intros H Hp Horder Hn Hpage Hfit Hnn Htop.
  destruct (n =? 0).
  { destruct (v_alloc_free va w ai) as [[? ?] ?].
    injection H as <- _ _. contradiction. }
  destruct (n >? to_size_t (end_ ai - base ai)) eqn:Hcmp.
  - destruct (reserve_default va w ai) as [[ok ai1] w1].
    destruct ok; simpl in H.
    2:{ injection H as <- _ _. contradiction. }
    destruct (wrap_ptr _ >? wrap_ptr _).
    { injection H as <- _ _. contradiction. }
    destruct (commit va w1 _ _ _) as [r w2].
    rewrite commit_result_not_minus_one in H.
    injection H as _ <- _. simpl_info.
    destruct (ALIGN_UP_exact n (page_size ai1) Hn Hpage Hfit) as [Hb _].
    rewrite wrap_ptr_small by lia.
    lia.
  - injection H as _ <- _.
    rewrite Z.gtb_ltb in Hcmp. apply Z.ltb_ge in Hcmp.
    assert (to_size_t (end_ ai - base ai) <= end_ ai - base ai).
    { unfold to_size_t. apply Z.mod_le; [lia | reflexivity]. }
    lia.
Qed.

(** X6. A successful [v_alloc_resize] leaves at least the requested number
    of bytes between [base] and [end_], whether it grew, reserved lazily or
    found the size already committed, provided nothing wraps on the
    resulting descriptor: the request rounded up to its (non-zero) page size
    stays below 2^64, and so does that rounded size added to its
    non-negative [base]. *)
Theorem resize_provides_capacity :
  forall (va : V_Allocator) (w w' : World) (ai ai' : AllocInfo) (n p : Z),
    v_alloc_resize va w ai n = (p, ai', w') ->
    p <> NULL ->
    base ai <= end_ ai ->
    0 <= n ->
    0 < page_size ai' ->
    n + (page_size ai' - 1) < size_t_modulus ->
    0 <= base ai' ->
    base ai' + ALIGN_UP n (page_size ai') < size_t_modulus ->
    p = base ai' /\ n <= end_ ai' - base ai'.
Proof.
  intros va w w' ai ai' n p H Hp Horder Hn Hpage Hfit Hnn Htop. split.
  - exact (proj1 (resize_returns_base va w w' ai ai' n p H Hp)).
  - exact (resize_capacity va w w' ai ai' n p H Hp Horder Hn Hpage Hfit
             Hnn Htop).
Qed.

Lemma resize_provides_capacity_witness :
  let r := v_alloc_resize posix_ok world0 zero_info 5000 in
  result_of r = base (info_of r)
  /\ 5000 <= end_ (info_of r) - base (info_of r).
Proof.
  intros r.
  apply (resize_provides_capacity posix_ok world0 (world_of r) zero_info
           (info_of r) 5000 (result_of r) (triple_eta r)).
  - vm_compute; discriminate.
  - vm_compute; discriminate.
  - discriminate.
  - reflexivity.
  - reflexivity.
  - vm_compute; discriminate.
  - reflexivity.
Defined.

Lemma resize_keeps_identity (va : V_Allocator) (w w' : World)
    (ai ai' : AllocInfo) (n p : Z) :
  v_alloc_resize va w ai n = (p, ai', w') ->
  base ai <> NULL ->
  base ai' = base ai
  /\ reserved_size ai' = reserved_size ai
  /\ page_size ai' = page_size ai.
Proof.
  unfold v_alloc_resize, v_alloc_free, reserve_default. intros H Hb.
  rewrite (eqb_false (base ai) 0 Hb) in H.
  rewrite (eqb_false (base ai) NULL Hb) in H.
  destruct (n =? 0).
  { destruct (release va w _ _) as [r w1].
    injection H as _ <- _. repeat split. }
  destruct (n >? _).
  2:{ injection H as _ <- _. repeat split. }
  simpl in H. destruct (_ >? _).
  { injection H as _ <- _. repeat split. }
  destruct (commit va w _ _ _) as [r w2].
  rewrite commit_result_not_minus_one in H.
  injection H as _ <- _. repeat split.
Qed.

Lemma store_other (m : Mem) (a x : Z) (ai : AllocInfo) :
  x <> a -> store m a ai x = m x.
Proof. intros Hx. unfold store. rewrite (eqb_false x a Hx). reflexivity. Qed.

Lemma store_same (m : Mem) (a : Z) (ai : AllocInfo) : store m a ai a = ai.
Proof. unfold store. rewrite Z.eqb_refl. reflexivity. Qed.

Lemma hdr_from_data_of_hdr_data (hdr : Z) :
  v_alloc_hdr_from_data (hdr_data hdr) = hdr.
Proof. unfold v_alloc_hdr_from_data, hdr_data. lia. Qed.

Lemma resize_zero_info (va : V_Allocator) (w w' : World) (ai' : AllocInfo)
    (n p : Z) :
  v_alloc_resize va w zero_info n = (p, ai', w') ->
  p <> NULL ->
  p = base ai'
  /\ reserved_size ai' = MAX_ARENA_CAPACITY
  /\ ptr ai' = end_ ai'.
Proof.
  unfold v_alloc_resize, v_alloc_free, reserve_default. intros H Hp.
  change (base zero_info =? NULL) with true in H.
  change (base zero_info =? 0) with true in H.
  destruct (n =? 0).
  { injection H as <- _ _. contradiction. }
  destruct (n >? _).
  2:{ injection H as <- _ _. contradiction. }
  destruct (v_alloc_reserve va w zero_info MAX_ARENA_CAPACITY)
    as [[ok ai1] w1] eqn:Hr.
  destruct ok; simpl in H.
  2:{ injection H as <- _ _. contradiction. }
  destruct (reserve_success va w w1 zero_info ai1 _ Hr) as [Hb Hshape].
  destruct (_ >? _).
  { injection H as <- _ _. contradiction. }
  destruct (commit va w1 _ _ _) as [r w2].
  rewrite commit_result_not_minus_one in H.
  injection H as <- <- _. simpl_info.
  rewrite Hshape. simpl_info. repeat split.
Qed.

Lemma realloc_create_block :
  forall (va : V_Allocator) (w w' : World) (m m' : Mem) (n p : Z),
    v_alloc_realloc va w m NULL n = (p, m', w') ->
    p <> NULL ->
    let hdr := v_alloc_hdr_from_data p in
    base (m' hdr) = hdr
    /\ reserved_size (m' hdr) = MAX_ARENA_CAPACITY
    /\ ptr (m' hdr) = end_ (m' hdr)
    /\ (forall x : Z, x <> hdr -> m' x = m x)
    /\ (0 <= n ->
        0 < page_size (m' hdr) ->
        n + offsetof_AllocHdr_data + (page_size (m' hdr) - 1)
        < size_t_modulus ->
        0 <= hdr ->
        hdr + ALIGN_UP (n + offsetof_AllocHdr_data) (page_size (m' hdr))
        < size_t_modulus ->
        p + n <= end_ (m' hdr)).
Proof.
  intros va w w' m m' n p H Hp hdr. unfold v_alloc_realloc in H.
  change (NULL =? NULL) with true in H. cbv iota in H.
  destruct (n =? 0).
  { injection H as <- _ _. contradiction. }
  destruct (v_alloc_resize va w zero_info _) as [[r ai'] w1] eqn:Hr.
  destruct (r =? NULL) eqn:Hrn.
  { injection H as <- _ _. contradiction. }
  apply Z.eqb_neq in Hrn.
  injection H as <- <- _.
  destruct (resize_zero_info va w w1 ai' _ r Hr Hrn)
    as (Hret & Hsize & Hpe).
  assert (Hhdr : hdr = base ai')
    by (unfold hdr; apply hdr_from_data_of_hdr_data).
  rewrite Hhdr, store_same.
  split; [reflexivity | split; [exact Hsize | split; [exact Hpe | split]]].
  - intros x Hx. apply store_other. exact Hx.
  - intros Hn Hpage Hfit Hnn Htop.
    assert (Hcap := resize_capacity va w w1 zero_info ai' _ r Hr Hrn).
    rewrite to_size_t_small in Hcap
      by (unfold is_size_t, offsetof_AllocHdr_data in *;
          change (ALIGN_UP sizeof_AllocInfo V_ALLOC_ALIGNMENT) with 48 in *;
          lia).
    specialize (Hcap ltac:(simpl; lia)
                     ltac:(rewrite offsetof_AllocHdr_data_value; lia)
                     Hpage ltac:(lia) Hnn Htop).
    unfold hdr_data. lia.
Qed.


(** X7. A successful [v_alloc_realloc(NULL, n)] reserves
    [MAX_ARENA_CAPACITY] bytes, stores the descriptor at the start of the
    region and returns the address 48 bytes after it: going back from the
    returned pointer finds a descriptor whose [base] is its own address, with
    [ptr = end_]; no other address of the descriptor memory is written; and
    when the page size is positive, [n + 48] does not wrap in the rounding
    and the rounded size added to the non-negative header address stays
    below 2^64, the [n] bytes from the returned pointer end at or before
    [end_]. *)
Theorem realloc_creates_self_describing_block :
  forall (va : V_Allocator) (w w' : World) (m m' : Mem) (n p : Z),
    v_alloc_realloc va w m NULL n = (p, m', w') ->
    p <> NULL ->
    let hdr := v_alloc_hdr_from_data p in
    base (m' hdr) = hdr
    /\ reserved_size (m' hdr) = MAX_ARENA_CAPACITY
    /\ ptr (m' hdr) = end_ (m' hdr)
    /\ (forall x : Z, x <> hdr -> m' x = m x)
    /\ (0 <= n ->
        0 < page_size (m' hdr) ->
        n + offsetof_AllocHdr_data + (page_size (m' hdr) - 1)
        < size_t_modulus ->
        0 <= hdr ->
        hdr + ALIGN_UP (n + offsetof_AllocHdr_data) (page_size (m' hdr))
        < size_t_modulus ->
        p + n <= end_ (m' hdr)).
Proof. exact realloc_create_block. Qed.

Lemma realloc_creates_self_describing_block_witness :
  result_of created <> NULL
  /\ base (info_of created (v_alloc_hdr_from_data (result_of created)))
     = v_alloc_hdr_from_data (result_of created)
  /\ result_of created + 64
     <= end_ (info_of created (v_alloc_hdr_from_data (result_of created))).
Proof.
  assert (Hp : result_of created <> NULL) by (vm_compute; discriminate).
  destruct (realloc_creates_self_describing_block posix_ok world0
              (world_of created) (fun _ => zero_info) (info_of created) 64
              (result_of created) (triple_eta created) Hp)
    as (Hbase & _ & _ & _ & Hcap).
  split; [exact Hp | split; [exact Hbase |]].
  apply Hcap.
  - discriminate.
  - reflexivity.
  - reflexivity.
  - vm_compute; discriminate.
  - reflexivity.
Defined.

Lemma free_info (va : V_Allocator) (w : World) (ai : AllocInfo) :
  info_of (v_alloc_free va w ai) = ai.
Proof.
  unfold v_alloc_free. destruct (base ai =? NULL); [reflexivity |].
  destruct (release va w _ _); reflexivity.
Qed.

Lemma store_id (m : Mem) (a x : Z) : store m a (m a) x = m x.
Proof.
  unfold store. destruct (x =? a) eqn:E; [| reflexivity].
  apply Z.eqb_eq in E. subst. reflexivity.
Qed.

Lemma realloc_existing_frame (va : V_Allocator) (w w' : World) (m m' : Mem)
    (data n p : Z) :
  data <> NULL ->
  v_alloc_realloc va w m data n = (p, m', w') ->
  (forall x : Z, x <> v_alloc_hdr_from_data data -> m' x = m x)
  /\ (base (m (v_alloc_hdr_from_data data)) <> NULL ->
      base (m' (v_alloc_hdr_from_data data))
      = base (m (v_alloc_hdr_from_data data))
      /\ reserved_size (m' (v_alloc_hdr_from_data data))
         = reserved_size (m (v_alloc_hdr_from_data data))
      /\ page_size (m' (v_alloc_hdr_from_data data))
         = page_size (m (v_alloc_hdr_from_data data))).
Proof.
  intros Hd H. unfold v_alloc_realloc in H.
  rewrite (eqb_false data NULL Hd) in H.
  set (hdr := v_alloc_hdr_from_data data) in *.
  destruct (n =? 0).
  - pose proof (free_info va w (m hdr)) as Hfree.
    destruct (v_alloc_free va w (m hdr)) as [[b ai0] w1].
    unfold info_of in Hfree. simpl in Hfree. subst ai0.
    injection H as _ <- _. split.
    + intros x _. apply store_id.
    + intros _. rewrite store_same. repeat split.
  - destruct (v_alloc_resize va w (m hdr) _) as [[r ai'] w1] eqn:Hr.
    assert (Hm : m' = store m hdr ai')
      by (destruct (r =? NULL); injection H as _ <- _; reflexivity).
    subst m'. split.
    + intros x Hx. apply store_other. exact Hx.
    + intros Hb. rewrite store_same.
      exact (resize_keeps_identity va w w1 (m hdr) ai' _ r Hr Hb).
Qed.

(** X8. [v_alloc_realloc] on a non-null data pointer writes no descriptor
    but the one 48 bytes before that pointer, whatever it returns; and when
    that descriptor has a non-null [base], its [base], [reserved_size] and
    [page_size] are the same afterwards: an allocation is never moved to or
    given another reservation. *)
Theorem realloc_touches_own_header_only :
  forall (va : V_Allocator) (w w' : World) (m m' : Mem) (data n p : Z),
    data <> NULL ->
    v_alloc_realloc va w m data n = (p, m', w') ->
    (forall x : Z, x <> v_alloc_hdr_from_data data -> m' x = m x)
    /\ (base (m (v_alloc_hdr_from_data data)) <> NULL ->
        base (m' (v_alloc_hdr_from_data data))
        = base (m (v_alloc_hdr_from_data data))
        /\ reserved_size (m' (v_alloc_hdr_from_data data))
           = reserved_size (m (v_alloc_hdr_from_data data))
        /\ page_size (m' (v_alloc_hdr_from_data data))
           = page_size (m (v_alloc_hdr_from_data data))).
Proof. exact realloc_existing_frame. Qed.

Lemma realloc_touches_own_header_only_witness :
  let r := v_alloc_realloc posix_ok (world_of created) (info_of created)
             (result_of created) 100000 in
  result_of created <> NULL
  /\ (forall x : Z,
        x <> v_alloc_hdr_from_data (result_of created) ->
        info_of r x = info_of created x)
  /\ reserved_size (info_of r (v_alloc_hdr_from_data (result_of created)))
     = reserved_size
         (info_of created (v_alloc_hdr_from_data (result_of created))).
Proof.
  intros r.
  assert (Hd : result_of created <> NULL) by (vm_compute; discriminate).
  destruct (realloc_touches_own_header_only posix_ok (world_of created)
              (world_of r) (info_of created) (info_of r) (result_of created)
              100000 (result_of r) Hd (triple_eta r)) as [Hframe Hident].
  split; [exact Hd | split; [exact Hframe |]].
  apply Hident. vm_compute; discriminate.
Defined.

(** X9. Creating and then freeing an allocation gives back exactly what was
    taken: after a successful [v_alloc_realloc(NULL, n)] that returned [p],
    [v_alloc_realloc(p, 0)] returns [NULL] and makes one platform call, the
    release of the [MAX_ARENA_CAPACITY] bytes at [p - 48]. *)
Theorem realloc_create_then_free :
  forall (K : Kernel) (t : Target) (w : World) (m : Mem) (n : Z),
    let c := v_alloc_realloc (v_alloc K t) w m NULL n in
    result_of c <> NULL ->
    let f := v_alloc_realloc (v_alloc K t) (world_of c) (info_of c)
               (result_of c) 0 in
    result_of f = NULL
    /\ history (world_of f)
       = release_call t
           (mkAllocInfo (result_of c - 48) 0 0 MAX_ARENA_CAPACITY 0)
         :: history (world_of c).
Proof.
  intros K t w m n c Hp f.
  destruct (realloc_create_block (v_alloc K t) w (world_of c) m (info_of c) n
              (result_of c) (triple_eta c) Hp) as (Hbase & Hsize & _).
  unfold f, v_alloc_realloc.
  rewrite (eqb_false (result_of c) NULL Hp). simpl (0 =? 0). cbv iota.
  set (hdr := v_alloc_hdr_from_data (result_of c)) in *.
  assert (Hnn : base (info_of c hdr) <> NULL).
  { rewrite Hbase. unfold hdr, v_alloc_hdr_from_data.
    intros E.
    assert (Hrange : result_of c = 48)
      by (rewrite offsetof_AllocHdr_data_value in E; unfold NULL in E; lia).
    clear E. revert Hbase. unfold hdr, v_alloc_hdr_from_data.
    rewrite offsetof_AllocHdr_data_value, Hrange. simpl.
    intros Hbase.
    (* a block whose header is at address 0 would have base NULL, and then
       the creating resize would have returned NULL *)
    unfold c, v_alloc_realloc in Hp, Hrange.
    change (NULL =? NULL) with true in Hp, Hrange. cbv iota in Hp, Hrange.
    destruct (n =? 0); [exact (Hp eq_refl) |].
    destruct (v_alloc_resize (v_alloc K t) w zero_info _)
      as [[r ai'] w1] eqn:Hr.
    destruct (r =? NULL) eqn:Hrn; [exact (Hp eq_refl) |].
    apply Z.eqb_neq in Hrn.
    destruct (resize_returns_base _ _ _ _ _ _ _ Hr Hrn) as [Hret _].
    unfold result_of, hdr_data in Hrange. simpl in Hrange.
    rewrite offsetof_AllocHdr_data_value in Hrange.
    apply Hrn. unfold NULL. lia. }
  unfold v_alloc_free. rewrite (eqb_false _ NULL Hnn).
  pose proof (release_world K t (world_of c) (info_of c hdr)) as Hrel.
  destruct (release (v_alloc K t) (world_of c) _ _) as [b w1].
  simpl in Hrel. subst w1.
  unfold result_of, world_of. simpl. split; [reflexivity |].
  f_equal. unfold release_call. rewrite Hbase, Hsize.
  unfold hdr, v_alloc_hdr_from_data. rewrite offsetof_AllocHdr_data_value.
  destruct t; reflexivity.
Qed.

Lemma realloc_create_then_free_witness :
  result_of created <> NULL
  /\ history
       (world_of
          (v_alloc_realloc posix_ok (world_of created) (info_of created)
             (result_of created) 0))
     = [Munmap 16777216 MAX_ARENA_CAPACITY;
        Mprotect 16777216 4096 PROT_READ_WRITE;
        Mmap MAX_ARENA_CAPACITY; Sysconf_PAGESIZE].
Proof.
  assert (Hp : result_of created <> NULL) by (vm_compute; discriminate).
  split; [exact Hp |].
  exact (proj2 (realloc_create_then_free kernel_ok POSIX world0
                  (fun _ => zero_info) 64 Hp)).
Defined.

(* ================================================================== *)
(** ** When the region is released *)

Lemma resize_history (K : Kernel) (t : Target) (w : World) (ai : AllocInfo)
    (n : Z) :
  base ai <> NULL ->
  let r := v_alloc_resize (v_alloc K t) w ai n in
  (n = 0 ->
   result_of r = NULL
   /\ history (world_of r) = release_call t ai :: history w)
  /\ (n <> 0 ->
      history (world_of r) = history w
      \/ exists total additional : Z,
          history (world_of r)
          = commit_call t (base ai) total additional :: history w).
Proof.
  intros Hb r. unfold r, v_alloc_resize, v_alloc_free, reserve_default.
  rewrite (eqb_false (base ai) 0 Hb).
  rewrite (eqb_false (base ai) NULL Hb).
  split.
  - intros ->. simpl (0 =? 0). cbv iota.
    pose proof (release_world K t w ai) as Hrel.
    destruct (release (v_alloc K t) w _ _) as [b w1].
    simpl in Hrel. subst w1. split; reflexivity.
  - intros Hn. rewrite (eqb_false n 0 Hn).
    destruct (n >? _); [| left; reflexivity].
    simpl. destruct (_ >? _); [left; reflexivity |].
    match goal with
    | |- context [commit (v_alloc K t) w ?a ?b ?c] =>
      destruct (commit_world_call K t w a b c) as (size & additional & Hc);
      destruct (commit (v_alloc K t) w a b c) as [b0 w1]
    end.
    simpl in Hc.
    rewrite commit_result_not_minus_one.
    right. exists size, additional. exact Hc.
Qed.

(** X10. On a live allocation (non-null data pointer, non-null [base] in its
    header) [v_alloc_realloc] releases the region exactly when the requested
    size is 0 or the size plus the 48 header bytes wraps to 0 in [size_t]: in
    both cases it returns [NULL] after one release call on the header's
    [base] and [reserved_size].  For every other size it makes no platform
    call or one commit call, never a release. *)
Theorem realloc_releases_exactly_when :
  forall (K : Kernel) (t : Target) (w : World) (m : Mem) (data n : Z),
    data <> NULL ->
    base (m (v_alloc_hdr_from_data data)) <> NULL ->
    let r := v_alloc_realloc (v_alloc K t) w m data n in
    let total := to_size_t (n + offsetof_AllocHdr_data) in
    (n = 0 \/ total = 0 ->
     result_of r = NULL
     /\ history (world_of r)
        = release_call t (m (v_alloc_hdr_from_data data)) :: history w)
    /\ (n <> 0 -> total <> 0 ->
        history (world_of r) = history w
        \/ exists size additional : Z,
            history (world_of r)
            = commit_call t (base (m (v_alloc_hdr_from_data data)))
                size additional
              :: history w).
Proof.
  intros K t w m data n Hd Hb r total.
  set (hdr := v_alloc_hdr_from_data data) in *.
  destruct (resize_history K t w (m hdr) 0 Hb) as [Hzero _].
  specialize (Hzero eq_refl).
  destruct (resize_history K t w (m hdr) total Hb) as [Htz Htnz].
  assert (Hfree : v_alloc_free (v_alloc K t) w (m hdr)
                  = (result_of (v_alloc_free (v_alloc K t) w (m hdr)),
                     m hdr,
                     world_of (v_alloc_resize (v_alloc K t) w (m hdr) 0))).
  { unfold v_alloc_resize. simpl (0 =? 0). cbv iota.
    pose proof (free_info (v_alloc K t) w (m hdr)) as Hi.
    destruct (v_alloc_free (v_alloc K t) w (m hdr)) as [[b a] w1].
    unfold info_of in Hi. simpl in Hi. subst a. reflexivity. }
  unfold r, v_alloc_realloc. rewrite (eqb_false data NULL Hd).
  fold hdr. fold total.
  split.
  - intros [-> | Ht].
    + simpl (0 =? 0). cbv iota. rewrite Hfree.
      unfold result_of, world_of. simpl. split; [reflexivity |].
      exact (proj2 Hzero).
    + destruct (n =? 0) eqn:Hn.
      * rewrite Hfree. unfold result_of, world_of. simpl.
        split; [reflexivity | exact (proj2 Hzero)].
      * destruct (Htz Ht) as [Hres Hhist].
        destruct (v_alloc_resize (v_alloc K t) w (m hdr) total)
          as [[p ai'] w1].
        unfold result_of, world_of in *. simpl in *. subst p.
        simpl (NULL =? NULL). cbv iota. simpl.
        split; [reflexivity | exact Hhist].
  - intros Hn Ht. rewrite (eqb_false n 0 Hn).
    specialize (Htnz Ht).
    destruct (v_alloc_resize (v_alloc K t) w (m hdr) total) as [[p ai'] w1].
    unfold world_of in *. simpl in Htnz.
    destruct (p =? NULL); simpl; exact Htnz.
Qed.

Lemma realloc_releases_exactly_when_witness :
  let hdr := v_alloc_hdr_from_data (result_of created) in
  (result_of created <> NULL /\ base (info_of created hdr) <> NULL)
  /\ history
       (world_of
          (v_alloc_realloc posix_ok (world_of created) (info_of created)
             (result_of created) (size_t_modulus - 48)))
     = release_call POSIX (info_of created hdr)
       :: history (world_of created).
Proof.
  intros hdr.
  assert (Hd : result_of created <> NULL) by (vm_compute; discriminate).
  assert (Hb : base (info_of created hdr) <> NULL)
    by (vm_compute; discriminate).
  split; [split; assumption |].
  destruct (realloc_releases_exactly_when kernel_ok POSIX (world_of created)
              (info_of created) (result_of created) (size_t_modulus - 48)
              Hd Hb) as [Hrel _].
  apply Hrel. right. reflexivity.
Defined.

(* ================================================================== *)
(** ** Lazy reservation *)

Lemma reserve_zero_info_failure (va : V_Allocator) (w : World) (n : Z) :
  result_of (v_alloc_reserve va w zero_info n) = false ->
  info_of (v_alloc_reserve va w zero_info n) = zero_info.
Proof.
  unfold v_alloc_reserve. destruct (reserve va w n) as [p w1]. simpl_info.
  destruct (p =? NULL) eqn:Hp; unfold result_of, info_of; simpl.
  - intros _. apply Z.eqb_eq in Hp. subst p. reflexivity.
  - discriminate.
Qed.

(** X11. On a zeroed descriptor the first allocation reserves lazily, and
    this is the same as reserving [MAX_ARENA_CAPACITY] explicitly first:
    [v_alloc_committ] (for a request of at least one byte whose rounding to
    16 does not wrap) and [v_alloc_resize] (for a size of at least one byte)
    behave as the same call made after a successful
    [v_alloc_reserve(.., MAX_ARENA_CAPACITY)], and when that reservation
    fails they return [NULL] with the descriptor still zeroed. *)
Theorem lazy_reservation_is_default_reserve :
  forall (va : V_Allocator) (w : World) (n : Z),
    0 < n ->
    let r0 := v_alloc_reserve va w zero_info MAX_ARENA_CAPACITY in
    (n + (V_ALLOC_ALIGNMENT - 1) < size_t_modulus ->
     v_alloc_committ va w zero_info n
     = if result_of r0
       then v_alloc_committ va (world_of r0) (info_of r0) n
       else (NULL, zero_info, world_of r0))
    /\ v_alloc_resize va w zero_info n
       = if result_of r0
         then v_alloc_resize va (world_of r0) (info_of r0) n
         else (NULL, zero_info, world_of r0).
Proof.
  intros va w n Hn r0.
  pose proof (reserve_zero_info_failure va w MAX_ARENA_CAPACITY) as Hfail.
  fold r0 in Hfail.
  assert (Hshape : result_of r0 = true ->
                   base (info_of r0) <> NULL
                   /\ ptr (info_of r0) = base (info_of r0)
                   /\ end_ (info_of r0) = base (info_of r0)).
  { intros Hok.
    destruct (reserve_success va w (world_of r0) zero_info (info_of r0)
                MAX_ARENA_CAPACITY) as [Hb Hs].
    - rewrite <- Hok. apply triple_eta.
    - split; [exact Hb |]. rewrite Hs. split; reflexivity. }
  split.
  - intros Hfit.
    destruct (ALIGN_UP_exact n V_ALLOC_ALIGNMENT ltac:(lia)
                ltac:(reflexivity) Hfit) as [Ha _].
    unfold v_alloc_committ at 1. unfold reserve_default.
    rewrite (eqb_false n 0) by lia.
    change (base zero_info =? 0) with true. cbv iota.
    change (to_size_t (end_ zero_info - ptr zero_info)) with 0.
    rewrite gtb_true by lia.
    rewrite (triple_eta (v_alloc_reserve va w zero_info MAX_ARENA_CAPACITY)).
    fold r0. destruct (result_of r0) eqn:Hok.
    + destruct (Hshape eq_refl) as (Hb & Hp & He).
      unfold v_alloc_committ, reserve_default.
      rewrite (eqb_false n 0) by lia.
      rewrite He, Hp, Z.sub_diag.
      change (to_size_t 0) with 0.
      rewrite (gtb_true (ALIGN_UP n V_ALLOC_ALIGNMENT) 0) by lia.
      rewrite (eqb_false (base (info_of r0)) 0 Hb).
      rewrite ?He, ?Hp, ?Z.sub_diag. reflexivity.
    + simpl. rewrite (Hfail eq_refl). reflexivity.
  - unfold v_alloc_resize at 1. unfold reserve_default.
    rewrite (eqb_false n 0) by lia.
    change (base zero_info =? 0) with true. cbv iota.
    change (to_size_t (end_ zero_info - base zero_info)) with 0.
    rewrite gtb_true by lia.
    rewrite (triple_eta (v_alloc_reserve va w zero_info MAX_ARENA_CAPACITY)).
    fold r0. destruct (result_of r0) eqn:Hok.
    + destruct (Hshape eq_refl) as (Hb & Hp & He).
      unfold v_alloc_resize, reserve_default.
      rewrite (eqb_false n 0) by lia.
      rewrite He, Z.sub_diag.
      change (to_size_t 0) with 0.
      rewrite (gtb_true n 0) by lia.
      rewrite (eqb_false (base (info_of r0)) 0 Hb).
      rewrite ?He, ?Z.sub_diag. reflexivity.
    + simpl. rewrite (Hfail eq_refl). reflexivity.
Qed.

Lemma lazy_reservation_is_default_reserve_witness :
  v_alloc_committ posix_ok world0 zero_info 33
  = v_alloc_committ posix_ok
      (world_of (v_alloc_reserve posix_ok world0 zero_info MAX_ARENA_CAPACITY))
      (info_of (v_alloc_reserve posix_ok world0 zero_info MAX_ARENA_CAPACITY))
      33.
Proof.
  destruct (lazy_reservation_is_default_reserve posix_ok world0 33
              ltac:(reflexivity)) as [Hc _].
  exact (Hc ltac:(reflexivity)).
Defined.

(* ================================================================== *)
(** ** Replaying allocations after a reset *)

Lemma committ_chain_layout (va : V_Allocator) (sizes : list Z) :
  forall (w w' : World) (ai ai' : AllocInfo) (ranges : list (Z * Z)),
    bumpable ai ->
    Forall (request_fits ai) sizes ->
    committ_chain va w ai sizes = (ranges, ai', w') ->
    Forall (fun r => fst r <> NULL) ranges ->
    ranges = layout (ptr ai) sizes
    /\ ptr ai' = ptr ai + total_aligned sizes
    /\ base ai' = base ai
    /\ reserved_size ai' = reserved_size ai
    /\ bumpable ai'
    /\ Forall (fun n => n <> 0) sizes.
Proof.
  induction sizes as [|n rest IH];
    intros w w' ai ai' ranges Hbump Hsizes Hchain Hok; simpl in Hchain.
  - injection Hchain as <- <- _. simpl.
    repeat (split; [first [reflexivity | assumption | lia] |]).
    constructor.
  - destruct (v_alloc_committ va w ai n) as [[p ai1] w1] eqn:Hcall.
    destruct (committ_chain va w1 ai1 rest) as [[ranges1 ai2] w2] eqn:Hrest.
    injection Hchain as <- <- _.
    inversion Hsizes as [|? ? Hn Hsizes']; subst.
    inversion Hok as [|? ? Hp Hok']; subst. simpl in Hp.
    destruct (committ_step va w w1 ai ai1 n p Hbump Hn Hcall Hp)
      as (-> & Hptr & Hapos & Hnz & Hbase & Hpage & Hrsv & Hend & Hbump1).
    assert (Hsizes1 : Forall (request_fits ai1) rest).
    { eapply Forall_impl; [| exact Hsizes'].
      intros m. apply request_fits_same; assumption. }
    destruct (IH w1 w2 ai1 ai2 ranges1 Hbump1 Hsizes1 Hrest Hok')
      as (Hlay & Hp2 & Hbase2 & Hrsv2 & Hbump2 & Hnzs).
    simpl. rewrite Hlay, Hptr.
    split; [reflexivity |].
    split; [lia |].
    split; [congruence |].
    split; [congruence |].
    split; [exact Hbump2 |].
    constructor; assumption.
Qed.

Lemma total_aligned_nonneg (sizes : list Z) : 0 <= total_aligned sizes.
Proof.
  induction sizes as [|n rest IH]; simpl; [lia |].
  pose proof (ALIGN_UP_nonneg n V_ALLOC_ALIGNMENT). lia.
Qed.

Lemma set_ptr_same (ai : AllocInfo) (v : Z) : v = ptr ai -> set_ptr v ai = ai.
Proof. intros ->. destruct ai. reflexivity. Qed.

Lemma committ_chain_fits (va : V_Allocator) (sizes : list Z) :
  forall (w : World) (ai : AllocInfo),
    Forall (fun n => n <> 0) sizes ->
    0 <= ptr ai ->
    ptr ai + total_aligned sizes <= end_ ai ->
    end_ ai < size_t_modulus ->
    committ_chain va w ai sizes
    = (layout (ptr ai) sizes, set_ptr (ptr ai + total_aligned sizes) ai, w).
Proof.
  induction sizes as [|n rest IH]; intros w ai Hnz Hnn Hroom Htop; simpl.
  - rewrite set_ptr_same by lia. reflexivity.
  - inversion Hnz as [|? ? Hn Hnz']; subst.
    simpl in Hroom.
    pose proof (ALIGN_UP_nonneg n V_ALLOC_ALIGNMENT) as Ha.
    pose proof (total_aligned_nonneg rest) as Ht.
    rewrite committ_fits;
      [| exact Hn
       | rewrite to_size_t_small by (unfold is_size_t; lia); lia].
    rewrite wrap_ptr_small by lia.
    rewrite IH; simpl_info; try assumption; try lia.
    unfold set_ptr. simpl_info. rewrite Z.add_assoc. reflexivity.
Qed.

(** X12. An arena used from its start can be replayed after a reset: when a
    sequence of [v_alloc_committ] calls has succeeded on an arena reserved
    at a non-negative, 16-aligned [base] with the cursor at [base], and for
    every request no number the call computes wraps (neither rounding, and
    [base] plus twice [reserved_size] plus the page-rounded request stays
    below 2^64), the ranges returned are the requests laid back to back from
    [base], each rounded up to 16; and after [v_alloc_reset] the same
    requests return the same ranges, end in the same descriptor and make no
    platform call. *)
Theorem replay_after_reset :
  forall (va : V_Allocator) (sizes : list Z) (w w' : World)
         (ai ai' : AllocInfo) (ranges : list (Z * Z)),
    reserved ai ->
    0 <= base ai ->
    ptr ai = base ai ->
    base ai mod V_ALLOC_ALIGNMENT = 0 ->
    Forall (request_fits ai) sizes ->
    committ_chain va w ai sizes = (ranges, ai', w') ->
    Forall (fun r => fst r <> NULL) ranges ->
    ranges = layout (base ai) sizes
    /\ exists ai0 : AllocInfo,
        v_alloc_reset (Some ai') = Some ai0
        /\ forall w2 : World,
            committ_chain va w2 ai0 sizes = (ranges, ai', w2).
Proof.
  intros va sizes w w' ai ai' ranges Hres Hnn Hstart Hal Hsizes Hchain Hok.
  assert (Hbump : bumpable ai).
  { apply reserved_bumpable; try assumption. rewrite Hstart. exact Hal. }
  destruct (committ_chain_layout va sizes w w' ai ai' ranges
              Hbump Hsizes Hchain Hok)
    as (Hlay & Hptr & Hbase & Hrsv & Hbump' & Hnz).
  rewrite Hstart in Hlay, Hptr.
  split; [exact Hlay |].
  exists (set_ptr (base ai') ai'). split; [reflexivity |].
  intros w2.
  destruct sizes as [|n rest].
  - simpl in Hchain. injection Hchain as <- <- _. simpl.
    rewrite set_ptr_same by (symmetry; exact Hstart). reflexivity.
  - inversion Hsizes as [|? ? [_ Hroom] _]; subst.
    pose proof (ALIGN_UP_nonneg (ALIGN_UP n V_ALLOC_ALIGNMENT) (page_size ai))
      as Hadj.
    destruct Hbump' as [Hb' _ Hs' [Hbp' Hpe'] _ Hspan' _].
    rewrite committ_chain_fits; simpl_info; try assumption; try lia.
    rewrite Hbase, <- Hptr. unfold set_ptr. simpl_info.
    destruct ai'. reflexivity.
Qed.

Lemma replay_after_reset_witness :
  let r := committ_chain posix_ok world0 (fresh_info (1024 * 1024))
             [33; 40; 5000] in
  result_of r = layout 16777216 [33; 40; 5000]
  /\ exists ai0 : AllocInfo,
      v_alloc_reset (Some (info_of r)) = Some ai0
      /\ forall w2 : World,
          committ_chain posix_ok w2 ai0 [33; 40; 5000]
          = (result_of r, info_of r, w2).
Proof.
  intros r.
  apply (replay_after_reset posix_ok [33; 40; 5000] world0 (world_of r)
           (fresh_info (1024 * 1024)) (info_of r) (result_of r)).
  - apply fresh_info_reserved. split; [discriminate | reflexivity].
  - discriminate.
  - reflexivity.
  - reflexivity.
  - repeat constructor; discriminate.
  - apply (triple_eta r).
  - vm_compute. repeat constructor; discriminate.
Defined.

(* ================================================================== *)
(** ** Decommit through the providers, and allocation after it *)

Lemma posix_decommit_cases (K : Kernel) (w : World) (addr size : Z) :
  decommit (v_alloc K POSIX) w addr size
  = if to_s32 (K (history w) (Madvise_DONTNEED addr size)) =? 0
    then
      (to_s32 (K (Madvise_DONTNEED addr size :: history w)
                 (Mprotect addr size PROT_NONE)) =? 0,
       mkWorld (posix_decommit_calls addr size ++ history w)
         (v_alloc_page_size w))
    else
      (false,
       mkWorld (Madvise_DONTNEED addr size :: history w)
         (v_alloc_page_size w)).
Proof.
  simpl. unfold v_alloc_posix_decommit, syscall. simpl.
  destruct (to_s32 (K (history w) (Madvise_DONTNEED addr size)) =? 0);
    reflexivity.
Qed.

Lemma win_decommit_cases (K : Kernel) (w : World) (addr size : Z) :
  decommit (v_alloc K WIN32) w addr size
  = (negb (K (history w) (win_decommit_call addr size) =? 0),
     mkWorld (win_decommit_call addr size :: history w)
       (v_alloc_page_size w)).
Proof. reflexivity. Qed.

Lemma decommit_call_made (va : V_Allocator) (w : World) (ai : AllocInfo)
    (extra : Z) :
  reserved ai ->
  0 < extra ->
  extra + (page_size ai - 1) < size_t_modulus ->
  extra <= end_ ai - base ai ->
  base ai mod page_size ai = 0 ->
  v_alloc_decommit va w (Some ai) extra
  = (fst (decommit va w (end_ ai - ALIGN_UP extra (page_size ai))
            (ALIGN_UP extra (page_size ai))),
     Some (if fst (decommit va w (end_ ai - ALIGN_UP extra (page_size ai))
                     (ALIGN_UP extra (page_size ai)))
           then set_end (end_ ai - ALIGN_UP extra (page_size ai)) ai
           else ai),
     snd (decommit va w (end_ ai - ALIGN_UP extra (page_size ai))
            (ALIGN_UP extra (page_size ai)))).
Proof.
  intros Hres Hpos Hfit Hle Hbase.
  pose proof (reserved_page_range ai Hres) as [Hpage _].
  pose proof (rounded_extra_within_committed ai extra Hres Hpos Hfit Hle)
    as Hin.
  set (rounded := ALIGN_UP extra (page_size ai)) in *.
  assert (Htarget : ALIGN_DOWN_PTR (end_ ai - rounded) (page_size ai)
                    = end_ ai - rounded).
  { apply ALIGN_DOWN_fixed; [exact Hpage |].
    destruct Hres as [_ _ _ (_ & _ & _ & Hcommitted)].
    replace (end_ ai - rounded)
      with ((end_ ai - base ai) + base ai - rounded) by lia.
    apply multiple_sub; [apply multiple_add; assumption |].
    apply ALIGN_UP_multiple. }
  unfold v_alloc_decommit.
  rewrite (eqb_false extra 0) by lia.
  fold rounded. rewrite (committed_size_cast ai Hres).
  rewrite (gtb_false _ _ Hin). rewrite Htarget.
  destruct (decommit va w (end_ ai - rounded) rounded) as [[|] w'];
    reflexivity.
Qed.

(** X13. The platform calls of [v_alloc_decommit], on a reserved arena with
    a page-aligned [base], for a request of at least one byte that does not
    wrap when rounded to the page size and is at most the committed size.
    On POSIX a successful call gives back exactly the tail of the committed
    region: [madvise] and then [mprotect] to no access, both for the rounded
    size at [end_ - rounded size]; [end_] becomes that address and no other
    field changes; a refused [madvise] is not followed by an [mprotect], and
    after either refusal the call returns [false] with the descriptor
    unchanged.  On Windows the one call is [VirtualFree] at
    [end_ - rounded size] with [MEM_DECOMMIT] in the size position and the
    rounded size, cut to 32 bits, in the free-type position, as the source
    passes them: it is not a request to decommit the rounded size; [end_] is
    lowered by the rounded size exactly when that call is answered with a
    non-zero value. *)
Theorem decommit_gives_back_tail :
  forall (K : Kernel) (t : Target) (w : World) (ai : AllocInfo) (extra : Z),
    reserved ai ->
    0 < extra ->
    extra + (page_size ai - 1) < size_t_modulus ->
    extra <= end_ ai - base ai ->
    base ai mod page_size ai = 0 ->
    let rounded := ALIGN_UP extra (page_size ai) in
    let target := end_ ai - rounded in
    let r := v_alloc_decommit (v_alloc K t) w (Some ai) extra in
    (t = POSIX ->
     let madvise := to_s32 (K (history w) (Madvise_DONTNEED target rounded)) in
     let mprotect :=
       to_s32 (K (Madvise_DONTNEED target rounded :: history w)
                 (Mprotect target rounded PROT_NONE)) in
     (madvise = 0 -> mprotect = 0 ->
      r = (true, Some (set_end target ai),
           mkWorld (posix_decommit_calls target rounded ++ history w)
             (v_alloc_page_size w)))
     /\ (madvise = 0 -> mprotect <> 0 ->
         r = (false, Some ai,
              mkWorld (posix_decommit_calls target rounded ++ history w)
                (v_alloc_page_size w)))
     /\ (madvise <> 0 ->
         r = (false, Some ai,
              mkWorld (Madvise_DONTNEED target rounded :: history w)
                (v_alloc_page_size w))))
    /\ (t = WIN32 ->
        let answer := K (history w) (win_decommit_call target rounded) in
        r = (negb (answer =? 0),
             Some (if answer =? 0 then ai else set_end target ai),
             mkWorld (win_decommit_call target rounded :: history w)
               (v_alloc_page_size w))).
Proof.
  intros K t w ai extra Hres Hpos Hfit Hle Hbase rounded target r.
  pose proof (decommit_call_made (v_alloc K t) w ai extra
                Hres Hpos Hfit Hle Hbase) as Hcall.
  fold rounded in Hcall. fold target in Hcall. fold r in Hcall.
  split.
  - intros -> madvise mprotect.
    rewrite posix_decommit_cases in Hcall.
    fold madvise in Hcall. fold mprotect in Hcall.
    split; [| split].
    + intros Hmad Hprot. rewrite Hcall, Hmad, Hprot. reflexivity.
    + intros Hmad Hprot. rewrite Hcall, Hmad.
      simpl (0 =? 0). cbv iota. rewrite (eqb_false mprotect 0 Hprot).
      reflexivity.
    + intros Hmad. rewrite Hcall. rewrite (eqb_false madvise 0 Hmad).
      reflexivity.
  - intros -> answer.
    rewrite win_decommit_cases in Hcall. fold answer in Hcall.
    rewrite Hcall. simpl fst. simpl snd.
    destruct (answer =? 0); reflexivity.
Qed.

Lemma decommit_gives_back_tail_witness :
  v_alloc_decommit posix_ok world0 (Some rewound_info) 100
  = (true, Some (set_end 16777216 rewound_info),
     mkWorld [Mprotect 16777216 4096 PROT_NONE;
              Madvise_DONTNEED 16777216 4096] 0).
Proof.
  assert (Hres : reserved rewound_info).
  { constructor; unfold invariant; vm_compute;
      repeat split; try reflexivity; discriminate. }
  destruct (decommit_gives_back_tail kernel_ok POSIX world0 rewound_info 100
              Hres ltac:(reflexivity) ltac:(reflexivity)
              ltac:(vm_compute; discriminate) ltac:(reflexivity))
    as [Hposix _].
  destruct (Hposix eq_refl) as [Hok _].
  exact (Hok eq_refl eq_refl).
Defined.

Lemma committ_above_end (va : V_Allocator) (w : World) (ai : AllocInfo)
    (n : Z) :
  end_ ai < ptr ai ->
  n <> 0 ->
  0 <= end_ ai ->
  ptr ai + ALIGN_UP n V_ALLOC_ALIGNMENT < size_t_modulus ->
  v_alloc_committ va w ai n
  = (ptr ai, set_ptr (ptr ai + ALIGN_UP n V_ALLOC_ALIGNMENT) ai, w).
Proof.
  intros Habove Hn Hnn Hsmall.
  pose proof (ALIGN_UP_nonneg n V_ALLOC_ALIGNMENT) as Ha.
  rewrite committ_fits; [rewrite wrap_ptr_small by lia; reflexivity
                        | exact Hn |].
  assert (Hwrap : to_size_t (end_ ai - ptr ai)
                  = end_ ai - ptr ai + size_t_modulus).
  { unfold to_size_t. symmetry.
    apply (Z.mod_unique _ _ (-1)); [left | ]; unfold size_t_modulus in *; lia. }
  rewrite Hwrap. lia.
Qed.

(** X14. After a decommit that lowers [end_] below the cursor, allocation
    goes on above the committed end: on an arena reserved at a non-negative
    [base], the next [v_alloc_committ] (any request of at least one byte
    whose 16-rounded size added to the cursor stays below 2^64) returns the
    old cursor, which lies above the new [end_], moves the cursor up by the
    16-rounded size and makes no platform call, so nothing is committed
    again. *)
Theorem committ_after_decommit_below_cursor :
  forall (va : V_Allocator) (w : World) (ai : AllocInfo) (extra n : Z),
    reserved ai ->
    0 <= base ai ->
    0 < extra ->
    extra + (page_size ai - 1) < size_t_modulus ->
    extra <= end_ ai - base ai ->
    base ai mod page_size ai = 0 ->
    let target := end_ ai - ALIGN_UP extra (page_size ai) in
    target < ptr ai ->
    fst (decommit va w target (ALIGN_UP extra (page_size ai))) = true ->
    0 < n ->
    ptr ai + ALIGN_UP n V_ALLOC_ALIGNMENT < size_t_modulus ->
    let d := v_alloc_decommit va w (Some ai) extra in
    info_of d = Some (set_end target ai)
    /\ v_alloc_committ va (world_of d) (set_end target ai) n
       = (ptr ai,
          set_ptr (ptr ai + ALIGN_UP n V_ALLOC_ALIGNMENT)
            (set_end target ai),
          world_of d)
    /\ end_ (set_end target ai) < ptr ai.
Proof.
  intros va w ai extra n Hres Hnn Hpos Hfit Hle Hbase target Habove Hok Hn
         Hsmall d.
  pose proof (decommit_call_made va w ai extra Hres Hpos Hfit Hle Hbase)
    as Hcall.
  pose proof (rounded_extra_within_committed ai extra Hres Hpos Hfit Hle)
    as Hin.
  fold target in Hcall. fold d in Hcall. rewrite Hok in Hcall.
  split; [rewrite Hcall; reflexivity | split; [| exact Habove]].
  rewrite committ_above_end; simpl_info; try assumption;
    [reflexivity | lia | unfold target; lia].
Qed.

Lemma committ_after_decommit_below_cursor_witness :
  let d := v_alloc_decommit posix_ok world0 (Some sample_info) 4096 in
  info_of d = Some (set_end 16777216 sample_info)
  /\ v_alloc_committ posix_ok (world_of d) (set_end 16777216 sample_info) 64
     = (16777216 + 48,
        set_ptr (16777216 + 112) (set_end 16777216 sample_info),
        world_of d).
Proof.
  intros d.
  destruct (committ_after_decommit_below_cursor posix_ok world0 sample_info
              4096 64 sample_info_reserved ltac:(discriminate)
              ltac:(reflexivity)
              ltac:(reflexivity) ltac:(vm_compute; discriminate)
              ltac:(reflexivity) ltac:(reflexivity) ltac:(reflexivity)
              ltac:(reflexivity) ltac:(reflexivity))
    as (Hinfo & Hcall & _).
  split; [exact Hinfo | exact Hcall].
Defined.

(* ================================================================== *)
(** ** Growing a live allocation *)

Lemma realloc_grow_block (va : V_Allocator) (w w' : World) (m m' : Mem)
    (data n p : Z) :
  data <> NULL ->
  v_alloc_realloc va w m data n = (p, m', w') ->
  p <> NULL ->
  base (m (v_alloc_hdr_from_data data)) = v_alloc_hdr_from_data data ->
  0 < v_alloc_hdr_from_data data ->
  base (m (v_alloc_hdr_from_data data))
  <= end_ (m (v_alloc_hdr_from_data data)) ->
  0 <= n ->
  0 < page_size (m (v_alloc_hdr_from_data data)) ->
  n + offsetof_AllocHdr_data
  + (page_size (m (v_alloc_hdr_from_data data)) - 1) < size_t_modulus ->
  v_alloc_hdr_from_data data
  + ALIGN_UP (n + offsetof_AllocHdr_data)
      (page_size (m (v_alloc_hdr_from_data data)))
  < size_t_modulus ->
  p = data
  /\ base (m' (v_alloc_hdr_from_data data)) = v_alloc_hdr_from_data data
  /\ data + n <= end_ (m' (v_alloc_hdr_from_data data)).
Proof.
  intros Hd H Hp Hself Hnn Horder Hn Hpage Hfit Htop.
  pose proof (realloc_returns_data va w w' m m' data n p H Hd Hp) as Hret.
  split; [exact Hret |].
  unfold v_alloc_realloc in H.
  rewrite (eqb_false data NULL Hd) in H.
  set (hdr := v_alloc_hdr_from_data data) in *.
  destruct (n =? 0).
  { destruct (v_alloc_free va w (m hdr)) as [[? ?] ?].
    injection H as <- _ _. contradiction. }
  rewrite offsetof_AllocHdr_data_value in *.
  rewrite to_size_t_small in H by (unfold is_size_t; lia).
  destruct (v_alloc_resize va w (m hdr) (n + 48)) as [[r ai'] w1] eqn:Hr.
  destruct (r =? NULL) eqn:Hrn.
  { injection H as <- _ _. contradiction. }
  apply Z.eqb_neq in Hrn.
  injection H as _ <- _. rewrite store_same.
  assert (Hb : base (m hdr) <> NULL)
    by (rewrite Hself; unfold NULL; lia).
  destruct (resize_keeps_identity va w w1 (m hdr) ai' _ r Hr Hb)
    as (Hbase & _ & Hpg).
  pose proof (resize_capacity va w w1 (m hdr) ai' _ r Hr Hrn Horder
                ltac:(lia) ltac:(rewrite Hpg; exact Hpage)
                ltac:(rewrite Hpg; lia)
                ltac:(rewrite Hbase, Hself; lia)
                ltac:(rewrite Hbase, Hpg, Hself; exact Htop)) as Hcap.
  split; [congruence |].
  assert (Hdata : data = hdr + 48).
  { unfold hdr, v_alloc_hdr_from_data.
    rewrite offsetof_AllocHdr_data_value. lia. }
  rewrite Hbase, Hself in Hcap. lia.
Qed.

(** X15. Growing a live allocation keeps it self-describing and large
    enough: when the header 48 bytes before a non-null data pointer holds a
    descriptor whose [base] is the header's own positive address (as
    [v_alloc_realloc(NULL, ..)] leaves it), and [n + 48] does not wrap in
    its rounding to the positive page size nor the rounded size when added
    to the header address, a successful [v_alloc_realloc(data, n)] returns
    [data], leaves [base] in the header equal to the header address and has
    [data + n <= end_]. *)
Theorem realloc_grow_keeps_block :
  forall (va : V_Allocator) (w w' : World) (m m' : Mem) (data n p : Z),
    data <> NULL ->
    v_alloc_realloc va w m data n = (p, m', w') ->
    p <> NULL ->
    base (m (v_alloc_hdr_from_data data)) = v_alloc_hdr_from_data data ->
    0 < v_alloc_hdr_from_data data ->
    base (m (v_alloc_hdr_from_data data))
    <= end_ (m (v_alloc_hdr_from_data data)) ->
    0 <= n ->
    0 < page_size (m (v_alloc_hdr_from_data data)) ->
    n + offsetof_AllocHdr_data
    + (page_size (m (v_alloc_hdr_from_data data)) - 1) < size_t_modulus ->
    v_alloc_hdr_from_data data
    + ALIGN_UP (n + offsetof_AllocHdr_data)
        (page_size (m (v_alloc_hdr_from_data data)))
    < size_t_modulus ->
    p = data
    /\ base (m' (v_alloc_hdr_from_data data)) = v_alloc_hdr_from_data data
    /\ data + n <= end_ (m' (v_alloc_hdr_from_data data)).
Proof. exact realloc_grow_block. Qed.

Lemma realloc_grow_keeps_block_witness :
  let r := v_alloc_realloc posix_ok (world_of created) (info_of created)
             (result_of created) 100000 in
  result_of r = result_of created
  /\ base (info_of r (v_alloc_hdr_from_data (result_of created)))
     = v_alloc_hdr_from_data (result_of created)
  /\ result_of created + 100000
     <= end_ (info_of r (v_alloc_hdr_from_data (result_of created))).
Proof.
  intros r.
  apply (realloc_grow_keeps_block posix_ok (world_of created) (world_of r)
           (info_of created) (info_of r) (result_of created) 100000
           (result_of r)).
  - vm_compute; discriminate.
  - apply (triple_eta r).
  - vm_compute; discriminate.
  - reflexivity.
  - reflexivity.
  - vm_compute; discriminate.
  - discriminate.
  - reflexivity.
  - reflexivity.
  - reflexivity.
Defined.
(* ================================================================== *)
(** ** Requests near 2^64 *)

(** The source checks no sum for overflow.  On the sample arena (one page
    committed at 0x1000000, cursor 48 bytes in) a request of 2^64 - 4096
    bytes passes the bound test of [v_alloc_committ] because the cursor plus
    the request wraps: the call returns the cursor, moves it 4096 bytes back
    and sets [end_] to [base]. *)
Lemma committ_wraps_near_top :
  v_alloc_committ posix_ok world0 sample_info (size_t_modulus - 4096)
  = (16777216 + 48,
     mkAllocInfo 16777216 (16777216 - 4096 + 48) 16777216 8192 4096,
     mkWorld
       [Mprotect (16777216 + 4096) (size_t_modulus - 4096) PROT_READ_WRITE]
       0).
Proof. vm_compute. reflexivity. Qed.

(** The same request passes the bound test of [v_alloc_resize]: the call
    returns [base] and leaves [ptr = end_] one page below it. *)
Lemma resize_wraps_near_top :
  v_alloc_resize posix_ok world0 sample_info (size_t_modulus - 4096)
  = (16777216,
     mkAllocInfo 16777216 (16777216 - 4096) (16777216 - 4096) 8192 4096,
     mkWorld
       [Mprotect (16777216 + 4096) (size_t_modulus - 8192) PROT_READ_WRITE]
       0).
Proof. vm_compute. reflexivity. Qed.

(** A resize to 2^64 - 1 bytes rounds to 0 pages and asks [mprotect] for
    2^64 - 4096 bytes from the committed end. *)
Lemma resize_rounds_to_zero_near_top :
  v_alloc_resize posix_ok world0 sample_info (size_t_modulus - 1)
  = (16777216,
     mkAllocInfo 16777216 16777216 16777216 8192 4096,
     mkWorld
       [Mprotect (16777216 + 4096) (size_t_modulus - 4096) PROT_READ_WRITE]
       0).
Proof. vm_compute. reflexivity. Qed.

